(** * Claim commitment and verification engine of the KILT SDK

    A shallow embedding of the parts of the SDK that the specification
    makes claims about:

    - [Js]: the untyped JavaScript values the utility functions inspect
      (truthiness, [typeof], property access, [Object.entries]);
    - [DelegationDecoder]: [decodePermissions];
    - [Attestation]: the constructor and [verify];
    - [ClaimUtils] and [RequestForAttestationUtils]: [errorCheck],
      [compress], [decompress];
    - [Engine]: the hash-tree builder, redaction and [verifyData], which
      the repository keeps in [RequestForAttestation.ts]. *)

From Stdlib Require Import ZArith String List Bool Lia Permutation.
From stdpp Require Import base option list strings gmap pretty.

Open Scope string_scope.
Open Scope list_scope.

(** ** Errors and results *)

(** What a [throw] carries.  The SDK errors are the factories of
    [SDKErrors]; [ERROR_DECOMPRESSION_ARRAY] takes the name of the type
    it failed on.  [TypeError] is the engine's own error (property of
    [undefined], [x.map is not a function]); [ForeignError] is whatever
    a helper that lives outside these files throws. *)
Inductive Exn : Type :=
  | ERROR_CLAIM_NOT_PROVIDED
  | ERROR_LEGITIMATIONS_NOT_PROVIDED
  | ERROR_CLAIM_NONCE_MAP_NOT_PROVIDED
  | ERROR_CLAIM_NONCE_MAP_MALFORMED
  | ERROR_DELEGATION_ID_TYPE
  | ERROR_CTYPE_HASH_NOT_PROVIDED
  | ERROR_CLAIM_CONTENTS_MALFORMED
  | ERROR_DECOMPRESSION_ARRAY (type : string)
  | TypeError
  | ForeignError (msg : string).

Inductive Result (A : Type) : Type :=
  | Ok (a : A)
  | Throw (e : Exn).
Arguments Ok {A} a.
Arguments Throw {A} e.

#[global] Instance Result_ret : MRet Result := fun A a => Ok a.
#[global] Instance Result_bind : MBind Result := fun A B f m =>
  match m with
  | Ok a => f a
  | Throw e => Throw e
  end.
#[global] Instance Result_fmap : FMap Result := fun A B f m =>
  match m with
  | Ok a => Ok (f a)
  | Throw e => Throw e
  end.

(** [l.map(f)] where [f] may throw: elements are visited left to right
    and the first throw aborts. *)
Fixpoint mapR {A B : Type} (f : A -> Result B) (l : list A) : Result (list B) :=
  match l with
  | [] => Ok []
  | x :: xs =>
      match f x with
      | Ok y =>
          match mapR f xs with
          | Ok ys => Ok (y :: ys)
          | Throw e => Throw e
          end
      | Throw e => Throw e
      end
  end.

(** ** JavaScript values *)

Module Js.

(** Numbers are the integers; an object is its list of own enumerable
    properties in insertion order. *)
Unset Elimination Schemes.
Inductive value : Type :=
  | Undefined
  | Null
  | Bool (b : bool)
  | Num (n : Z)
  | Str (s : string)
  | Arr (elems : list value)
  | Obj (props : list (string * value)).
Set Elimination Schemes.

(** [!!v] *)
Definition truthy (v : value) : bool :=
  match v with
  | Undefined | Null => false
  | Bool b => b
  | Num n => negb (n =? 0)%Z
  | Str s => negb (String.eqb s "")
  | Arr _ | Obj _ => true
  end.

Definition typeof (v : value) : string :=
  match v with
  | Undefined => "undefined"
  | Null | Arr _ | Obj _ => "object"
  | Bool _ => "boolean"
  | Num _ => "number"
  | Str _ => "string"
  end.

Definition isArray (v : value) : bool :=
  match v with
  | Arr _ => true
  | _ => false
  end.

(** Lookup of an own property in a property list. *)
Fixpoint assoc (k : string) (props : list (string * value)) : option value :=
  match props with
  | [] => None
  | (k', v) :: rest => if String.eqb k k' then Some v else assoc k rest
  end.

(** [v.k] for the property names the sources write out: a [TypeError]
    on [undefined] and [null], the own property of an object, and
    [undefined] when it is missing.  Arrays and strings answer
    [undefined], which is their answer for every key that is neither
    an index nor [length]; inherited properties are not modelled.  The
    theorems below read values through the fixed keys of the sources. *)
Definition get (v : value) (k : string) : Result value :=
  match v with
  | Undefined | Null => Throw TypeError
  | Obj props => Ok (default Undefined (assoc k props))
  | _ => Ok Undefined
  end.

(** [a[i]] on an array. *)
Definition index (elems : list value) (i : nat) : value :=
  default Undefined (elems !! i).

(** [v === null] and [v === undefined] *)
Definition is_null (v : value) : bool :=
  match v with
  | Null => true
  | _ => false
  end.

Definition is_undefined (v : value) : bool :=
  match v with
  | Undefined => true
  | _ => false
  end.

(** [!v], a boolean again *)
Definition not (v : value) : value := Bool (negb (truthy v)).

Fixpoint chars (s : string) : list string :=
  match s with
  | EmptyString => []
  | String c rest => String c EmptyString :: chars rest
  end.

(** [Object.entries(v)] *)
Definition entries (v : value) : Result (list (string * value)) :=
  match v with
  | Undefined | Null => Throw TypeError
  | Bool _ | Num _ => Ok []
  | Str s => Ok (imap (fun i c => (pretty i, Str c)) (chars s))
  | Arr elems => Ok (imap (fun i x => (pretty i, x)) elems)
  | Obj props => Ok props
  end.

(** Every object has distinct keys, all the way down: what a
    JavaScript object always satisfies and a property list may not. *)
Fixpoint wf (v : value) : bool :=
  match v with
  | Arr elems => forallb wf elems
  | Obj props =>
      bool_decide (NoDup (map fst props))
      && forallb (fun kv => wf (snd kv)) props
  | _ => true
  end.

(** Deep equality of values: arrays position by position, objects as
    maps, whatever the order of their keys (the [toEqual] of the
    tests, on objects without [undefined] holes). *)
Fixpoint equal (a b : value) : bool :=
  match a, b with
  | Undefined, Undefined => true
  | Null, Null => true
  | Bool x, Bool y => Bool.eqb x y
  | Num x, Num y => (x =? y)%Z
  | Str x, Str y => String.eqb x y
  | Arr xs, Arr ys =>
      (fix go (xs ys : list value) : bool :=
         match xs, ys with
         | [], [] => true
         | x :: xs', y :: ys' => equal x y && go xs' ys'
         | _, _ => false
         end) xs ys
  | Obj ps, Obj qs =>
      (length ps =? length qs)%nat
      && forallb (fun kv =>
                    match assoc (fst kv) qs with
                    | Some w => equal (snd kv) w
                    | None => false
                    end) ps
  | _, _ => false
  end.

(** An object with exactly the given keys. *)
Definition has_keys (ks : list string) (v : value) : bool :=
  match v with
  | Obj props =>
      (length props =? length ks)%nat
      && forallb (fun k => bool_decide (is_Some (assoc k props))) ks
  | _ => false
  end.

(** Structural induction with the hypothesis on every element and on
    every property value. *)
Definition value_ind (P : value -> Prop)
    (HUndefined : P Undefined) (HNull : P Null)
    (HBool : forall b, P (Bool b)) (HNum : forall n, P (Num n))
    (HStr : forall s, P (Str s))
    (HArr : forall elems, Forall P elems -> P (Arr elems))
    (HObj : forall props, Forall (fun kv => P (snd kv)) props -> P (Obj props))
    : forall v, P v :=
  fix F (v : value) : P v :=
    match v with
    | Undefined => HUndefined
    | Null => HNull
    | Bool b => HBool b
    | Num n => HNum n
    | Str s => HStr s
    | Arr elems =>
        HArr elems
          ((fix G (l : list value) : Forall P l :=
              match l with
              | [] => @List.Forall_nil _ P
              | x :: l' => @List.Forall_cons _ P x l' (F x) (G l')
              end) elems)
    | Obj props =>
        HObj props
          ((fix G (l : list (string * value))
              : Forall (fun kv => P (snd kv)) l :=
              match l with
              | [] => @List.Forall_nil _ _
              | kv :: l' => @List.Forall_cons _ _ kv l' (F (snd kv)) (G l')
              end) props)
    end.

End Js.

(** ** Delegation: decoding the permission bitset *)

Module DelegationDecoder.

(** Modelled from the spec: the [Permission] enum of [Delegation.ts],
    whose flags the spec gives as ATTEST = 0b01 and DELEGATE = 0b10. *)
Inductive Permission : Type :=
  | ATTEST
  | DELEGATE.

Definition flag (p : Permission) : Z :=
  match p with
  | ATTEST => 1
  | DELEGATE => 2
  end.

(** Position of the permission's bit. *)
Definition bit (p : Permission) : Z :=
  match p with
  | ATTEST => 0
  | DELEGATE => 1
  end.

(** The operands of [&] go through [ToInt32]. *)
Definition toInt32 (n : Z) : Z := ((n + 2 ^ 31) mod 2 ^ 32 - 2 ^ 31)%Z.

Definition bitand (a b : Z) : Z := Z.land (toInt32 a) (toInt32 b).

Definition decodePermissions (bitset : Z) : list Permission :=
  let permissions := [] in
  let permissions :=
    if Js.truthy (Js.Num (bitand bitset (flag ATTEST)))
    then permissions ++ [ATTEST] else permissions in
  let permissions :=
    if Js.truthy (Js.Num (bitand bitset (flag DELEGATE)))
    then permissions ++ [DELEGATE] else permissions in
  permissions.

End DelegationDecoder.

(** ** Attestation *)

Module Attestation.

Record Identity : Type := { address : string }.

(** The fields of [IClaim] and [IRequestForAttestation] that the
    constructor reads. *)
Record IClaim : Type := { cType : string }.

Record IRequestForAttestation : Type := {
  hash : string;
  claim : IClaim;
  req_delegationId : option string
}.

Record Attestation : Type := {
  claimHash : string;
  cTypeHash : string;
  owner : string;
  revoked : bool;
  delegationId : option string
}.

(** [new Attestation(requestForAttestation, attester, revoked = false)];
    an omitted argument is [None]. *)
Definition new (requestForAttestation : IRequestForAttestation)
    (attester : Identity) (revoked : option bool) : Attestation :=
  let revoked := default false revoked in
  {| owner := address attester;
     claimHash := hash requestForAttestation;
     cTypeHash := cType (claim requestForAttestation);
     delegationId := req_delegationId requestForAttestation;
     revoked := revoked |}.

(** A settled promise. *)
Inductive Promise (A : Type) : Type :=
  | Resolved (a : A)
  | Rejected (reason : string).
Arguments Resolved {A} a.
Arguments Rejected {A} reason.

Section Verify.
(** The ledger query of [Attestation.chain]: [undefined] is [None]. *)
Variable query : string -> Promise (option Attestation).

(** [verify(claimHash = this.claimHash)]: the promise it returns and
    the lines it hands to [log.debug]. *)
Definition verify (this : Attestation) (claimHash : option string)
    : Promise bool * list string :=
  let claimHash := default (Attestation.claimHash this) claimHash in
  match query claimHash with
  | Rejected reason => (Rejected reason, [])
  | Resolved attestation =>
      let attestationValid :=
        match attestation with
        | None => false
        | Some a => String.eqb (owner a) (owner this) && negb (revoked a)
        end in
      (Resolved attestationValid,
       if attestationValid then [] else ["No valid attestation found"])
  end.
End Verify.

End Attestation.

(** ** Key sorting *)

Module Jsonabc.
Import Js.

Fixpoint insert_by_key (kv : string * value) (sorted : list (string * value))
    : list (string * value) :=
  match sorted with
  | [] => [kv]
  | kv' :: rest =>
      if String.leb (fst kv) (fst kv') then kv :: sorted
      else kv' :: insert_by_key kv rest
  end.

Definition sort_by_key (props : list (string * value)) : list (string * value) :=
  foldr insert_by_key [] props.

(** Modelled from the spec: [jsonabc.sortObj] of [util/jsonabc], which
    the spec describes as sorting object keys recursively; arrays keep
    their order and their elements are sorted inside. *)
Fixpoint sortObj (un : value) : value :=
  match un with
  | Arr elems => Arr (map sortObj elems)
  | Obj props =>
      Obj (sort_by_key (map (fun kv => (fst kv, sortObj (snd kv))) props))
  | _ => un
  end.

End Jsonabc.

(** ** Claim utilities *)

Module ClaimUtils.
Import Js.

Section WithDataUtils.
(** [validateAddress] and [validateHash] of [util/DataUtils]: they
    return a boolean or throw. *)
Variable validateAddress : value -> string -> Result value.
Variable validateHash : value -> string -> Result value.

Definition allowed_typeof (t : string) : bool :=
  bool_decide (t ∈ ["string"; "number"; "boolean"; "object"]).

(** The body of the [forEach] over [Object.entries(input.contents)]. *)
Definition check_entry (kv : string * value) : Result unit :=
  let '(key, value) := kv in
  if negb (truthy (Str key))
     || negb (String.eqb (typeof (Str key)) "string")
     || negb (allowed_typeof (typeof value))
  then Throw ERROR_CLAIM_CONTENTS_MALFORMED
  else Ok tt.

Definition errorCheck (input : value) : Result unit :=
  cTypeHash ← get input "cTypeHash";
  if negb (truthy cTypeHash) then Throw ERROR_CTYPE_HASH_NOT_PROVIDED else
  owner ← get input "owner";
  _ ← (if truthy owner then validateAddress owner "Claim owner"
       else Ok Undefined);
  contents ← get input "contents";
  _ ← (if negb (is_undefined contents)
       then es ← entries contents; mapR check_entry es
       else Ok []);
  _ ← validateHash cTypeHash "Claim CType";
  Ok tt.

Definition compress (claim : value) : Result value :=
  _ ← errorCheck claim;
  contents ← get claim "contents";
  let sortedContents := Jsonabc.sortObj contents in
  cTypeHash ← get claim "cTypeHash";
  owner ← get claim "owner";
  Ok (Arr [sortedContents; cTypeHash; owner]).
End WithDataUtils.

Definition decompress (claim : value) : Result value :=
  match claim with
  | Arr elems =>
      if negb (length elems =? 3)%nat
      then Throw (ERROR_DECOMPRESSION_ARRAY "Claim")
      else Ok (Obj [("contents", index elems 0);
                    ("cTypeHash", index elems 1);
                    ("owner", index elems 2)])
  | _ => Throw (ERROR_DECOMPRESSION_ARRAY "Claim")
  end.

End ClaimUtils.

(** ** Request-for-attestation utilities *)

Module RequestForAttestationUtils.
Import Js.

Section WithCollaborators.
Variable validateAddress : value -> string -> Result value.
Variable validateHash : value -> string -> Result value.
(** The static [RequestForAttestation.verifyData]. *)
Variable verifyData : value -> Result value.
(** [compress] and [decompress] of [AttestedClaim.utils]. *)
Variable AttestedClaimUtils_compress : value -> Result value.
Variable AttestedClaimUtils_decompress : value -> Result value.

(** [if (!input.claim) throw ... else ClaimUtils.errorCheck(input.claim)] *)
Definition check_claim (input : value) : Result unit :=
  claim ← get input "claim";
  if negb (truthy claim) then Throw ERROR_CLAIM_NOT_PROVIDED
  else ClaimUtils.errorCheck validateAddress validateHash claim.

(** [if (!input.legitimations && !Array.isArray(input.legitimations))] *)
Definition check_legitimations (input : value) : Result unit :=
  legitimations ← get input "legitimations";
  if negb (truthy legitimations) && negb (isArray legitimations)
  then Throw ERROR_LEGITIMATIONS_NOT_PROVIDED
  else Ok tt.

(** The callback of [some] over the entries of the nonce map; [||]
    stops at the first operand that holds. *)
Definition entry_malformed (kv : string * value) : Result bool :=
  let '(digest, nonce) := kv in
  if negb (truthy (Str digest)) then Ok true else
  valid ← validateHash (Str digest) "statement digest";
  if negb (truthy valid) then Ok true else
  if negb (String.eqb (typeof nonce) "string") then Ok true else
  Ok (negb (truthy nonce)).

(** [entries.some(entry_malformed)] *)
Fixpoint some_malformed (es : list (string * value)) : Result bool :=
  match es with
  | [] => Ok false
  | kv :: rest =>
      b ← entry_malformed kv;
      if (b : bool) then Ok true else some_malformed rest
  end.

Definition check_claimNonceMap (input : value) : Result unit :=
  claimNonceMap ← get input "claimNonceMap";
  if negb (truthy claimNonceMap)
  then Throw ERROR_CLAIM_NONCE_MAP_NOT_PROVIDED else
  malformed ← (if negb (String.eqb (typeof claimNonceMap) "object")
               then Ok true
               else es ← entries claimNonceMap; some_malformed es);
  if (malformed : bool) then Throw ERROR_CLAIM_NONCE_MAP_MALFORMED
  else Ok tt.

(** [if (typeof input.delegationId !== 'string' &&
         !input.delegationId === null)]: the negation binds tighter
    than [===], so the second operand compares a boolean with
    [null]. *)
Definition check_delegationId (input : value) : Result unit :=
  delegationId ← get input "delegationId";
  if negb (String.eqb (typeof delegationId) "string")
     && is_null (Js.not delegationId)
  then Throw ERROR_DELEGATION_ID_TYPE
  else Ok tt.

Definition errorCheck (input : value) : Result unit :=
  _ ← check_claim input;
  _ ← check_legitimations input;
  _ ← check_claimNonceMap input;
  _ ← check_delegationId input;
  _ ← verifyData input;
  Ok tt.

(** [leg.map(f)]: a [TypeError] when [leg] has no [map]. *)
Definition array_map (f : value -> Result value) (leg : value) : Result value :=
  match leg with
  | Arr elems => Arr <$> mapR f elems
  | _ => Throw TypeError
  end.

Definition compressLegitimation (leg : value) : Result value :=
  array_map AttestedClaimUtils_compress leg.

Definition decompressLegitimation (leg : value) : Result value :=
  array_map AttestedClaimUtils_decompress leg.

Definition compress (reqForAtt : value) : Result value :=
  _ ← errorCheck reqForAtt;
  claim ← get reqForAtt "claim";
  claim' ← ClaimUtils.compress validateAddress validateHash claim;
  claimNonceMap ← get reqForAtt "claimNonceMap";
  claimerSignature ← get reqForAtt "claimerSignature";
  claimHashes ← get reqForAtt "claimHashes";
  rootHash ← get reqForAtt "rootHash";
  legitimations ← get reqForAtt "legitimations";
  legitimations' ← compressLegitimation legitimations;
  delegationId ← get reqForAtt "delegationId";
  Ok (Arr [claim'; claimNonceMap; claimerSignature; claimHashes;
           rootHash; legitimations'; delegationId]).

(** [!Array.isArray(reqForAtt) || reqForAtt.length !== 7] *)
Definition bad_arity (reqForAtt : value) : bool :=
  match reqForAtt with
  | Arr elems => negb (length elems =? 7)%nat
  | _ => true
  end.

(** The object literal that [decompress] returns, its properties
    evaluated in order. *)
Definition decompress_fields (elems : list value) : Result value :=
  claim ← ClaimUtils.decompress (index elems 0);
  legitimations ← decompressLegitimation (index elems 5);
  Ok (Obj [("claim", claim);
           ("claimNonceMap", index elems 1);
           ("claimerSignature", index elems 2);
           ("claimHashes", index elems 3);
           ("rootHash", index elems 4);
           ("legitimations", legitimations);
           ("delegationId", index elems 6)]).

Definition decompress (reqForAtt : value) : Result value :=
  if bad_arity reqForAtt
  then Throw (ERROR_DECOMPRESSION_ARRAY "Request for Attestation")
  else
    match reqForAtt with
    | Arr elems => decompress_fields elems
    | _ => Throw TypeError
    end.

(** A legitimation survives the codec of attested claims: it is
    compressed, decompressed, and comes back equal. *)
Definition legitimation_roundtrips (l : value) : Prop :=
  exists c l',
    AttestedClaimUtils_compress l = Ok c
    /\ AttestedClaimUtils_decompress c = Ok l'
    /\ equal l' l = true.
End WithCollaborators.

(** [r.k] on a value that has properties. *)
Definition field (r : value) (k : string) : value :=
  match get r k with
  | Ok v => v
  | Throw _ => Undefined
  end.

(** What [decompress] makes of the compressed request [r]: the fields of
    [r] in the order of the encoding, the contents of the claim with
    their keys sorted, the legitimations as their own decoder returns
    them. *)
Definition decompressed_form (r : value) (legitimations' : list value) : value :=
  let claim := field r "claim" in
  Obj [("claim",
        Obj [("contents", Jsonabc.sortObj (field claim "contents"));
             ("cTypeHash", field claim "cTypeHash");
             ("owner", field claim "owner")]);
       ("claimNonceMap", field r "claimNonceMap");
       ("claimerSignature", field r "claimerSignature");
       ("claimHashes", field r "claimHashes");
       ("rootHash", field r "rootHash");
       ("legitimations", Arr legitimations');
       ("delegationId", field r "delegationId")].

Definition request_keys : list string :=
  ["claim"; "claimNonceMap"; "claimerSignature"; "claimHashes";
   "rootHash"; "legitimations"; "delegationId"].

Definition claim_keys : list string := ["contents"; "cTypeHash"; "owner"].

(** The shape of an [IRequestForAttestation]: an object with the seven
    fields, its claim an object with the three fields of [IClaim], its
    legitimations an array. *)
Definition is_request (r : value) : bool :=
  wf r
  && has_keys request_keys r
  && match get r "claim" with
     | Ok claim => has_keys claim_keys claim
     | Throw _ => false
     end
  && match get r "legitimations" with
     | Ok legitimations => isArray legitimations
     | Throw _ => false
     end.

End RequestForAttestationUtils.

(** ** The commitment engine: builder, redaction, verifier *)

Module Engine.

Abbreviation Digest := string (only parsing).
Abbreviation Address := string (only parsing).
Abbreviation PropertyName := string (only parsing).
Abbreviation Salt := string (only parsing).
Abbreviation Signature := string (only parsing).
Abbreviation SecretKey := string (only parsing).

(** A disclosed unit: a claim property, or the claim owner as the
    distinguished pseudo-property. *)
Abbreviation UnitKey := (option string) (only parsing).
Definition OwnerUnit : UnitKey := None.
Definition PropertyUnit (k : PropertyName) : UnitKey := Some k.

(** Modelled from the spec: the data model of section 3, whose
    declarations ([types/Claim], [types/RequestForAttestation],
    [types/AttestedClaim]) the repository keeps elsewhere.  The owner of
    a claim may be erased. *)
Record Claim : Type := {
  cTypeHash : Digest;
  owner : option Address;
  contents : gmap string Js.value
}.

(** Modelled from the spec: the nonce entry of a unit, the digest that
    commits to it and the salt.  The salt of a redacted unit is gone and
    its digest stays: the repository's tests read an undefined [nonce]
    in the entry of a hidden property. *)
Record NonceEntry : Type := {
  hash : Digest;
  nonce : option Salt
}.

Inductive RequestForAttestation : Type := Build_RequestForAttestation {
  claim : Claim;
  claimNonceMap : gmap (option string) NonceEntry;
  claimHashes : gset string;
  claimerSignature : Signature;
  rootHash : Digest;
  legitimations : list AttestedClaim;
  delegationId : option Digest
}
with AttestedClaim : Type := Build_AttestedClaim {
  request : RequestForAttestation;
  attestation : Attestation.Attestation
}.

Record Identity : Type := {
  address : Address;
  secretKey : SecretKey
}.

Section WithPrimitives.
(** The hash primitive, the serializer, the combination function of
    the root digest (a design choice the spec leaves to the
    implementer) and the signature scheme. *)
Variable H : string -> Digest.
Variable serialize : Js.value -> string.
Variable combine : gset string -> list Digest -> option Digest -> string.
Variable sign : Digest -> SecretKey -> Signature.
Variable verify : Digest -> Signature -> Address -> bool.

(** Modelled from the spec: canonical serialization, which sorts
    object keys recursively before serializing. *)
Definition canonicalSerialize (v : Js.value) : string :=
  serialize (Jsonabc.sortObj v).

(** Modelled from the spec: [H(nonce || canonicalSerialize(value))]. *)
Definition hashNonceValue (nonce : Salt) (v : Js.value) : Digest :=
  H (nonce ++ canonicalSerialize v)%string.

(** Modelled from the spec: the root digest over the claim hashes,
    the root hashes of the legitimations and the delegation id. *)
Definition calculateRootHash (hashes : gset string)
    (legitimations : list AttestedClaim) (delegationId : option Digest)
    : Digest :=
  H (combine hashes (map (fun l => rootHash (request l)) legitimations)
       delegationId).

Definition commit (nonce : Salt) (v : Js.value) : NonceEntry :=
  {| hash := hashNonceValue nonce v; nonce := Some nonce |}.

(** Modelled from the spec: the hash-tree builder of section 4.2 (the
    repository's [RequestForAttestation.fromClaimAndIdentity]).  The
    salt source hands one nonce to each unit; a fresh build always
    includes the owner entry. *)
Definition buildRequest (claim : Claim) (claimer : Identity)
    (salts : UnitKey -> Salt) (legitimations : list AttestedClaim)
    (delegationId : option Digest) : RequestForAttestation :=
  let ownerEntry :=
    commit (salts OwnerUnit) (Js.Str (default "" (owner claim))) in
  let propertyEntries :=
    map_imap (fun k v => Some (commit (salts (PropertyUnit k)) v))
      (contents claim) in
  let claimNonceMap :=
    <[OwnerUnit := ownerEntry]> (kmap PropertyUnit propertyEntries) in
  let claimHashes : gset string := map_img (hash <$> claimNonceMap) in
  let rootHash := calculateRootHash claimHashes legitimations delegationId in
  {| claim := claim;
     claimNonceMap := claimNonceMap;
     claimHashes := claimHashes;
     claimerSignature := sign rootHash (secretKey claimer);
     rootHash := rootHash;
     legitimations := legitimations;
     delegationId := delegationId |}.

(** Modelled from the spec: steps 1 and 2 of the verifier of section
    4.4 for one surviving unit.  Its nonce entry must be there and carry
    a live nonce, the recomputed digest must equal the stored one, and
    the stored one must be among the claim hashes; each failure
    throws. *)
Definition verifyUnit (r : RequestForAttestation) (u : UnitKey)
    (v : Js.value) : Result unit :=
  match claimNonceMap r !! u with
  | None => Throw (ForeignError "nonce entry missing")
  | Some e =>
      match nonce e with
      | None => Throw (ForeignError "entry without a live nonce")
      | Some n =>
          if negb (String.eqb (hashNonceValue n v) (hash e))
          then Throw (ForeignError "invalid hash")
          else if negb (bool_decide (hash e ∈ claimHashes r))
          then Throw (ForeignError "hash not among the claim hashes")
          else Ok tt
      end
  end.

(** The surviving units of a request all pass steps 1 and 2. *)
Definition units_verify (r : RequestForAttestation) : Prop :=
  (forall a, owner (claim r) = Some a ->
     verifyUnit r OwnerUnit (Js.Str a) = Ok tt)
  /\ (forall k v, contents (claim r) !! k = Some v ->
        verifyUnit r (PropertyUnit k) v = Ok tt).

(** Modelled from the spec: the invariant of section 3 that every
    entry of [claimHashes] has a corresponding entry in the nonce map. *)
Definition claimHashesCovered (r : RequestForAttestation) : bool :=
  bool_decide (claimHashes r ⊆ map_img (hash <$> claimNonceMap r)).

(** Modelled from the spec: step 4 of the verifier, the claimer's
    signature over the root hash checked against the claim owner. *)
Definition verifySignature (r : RequestForAttestation) : bool :=
  match owner (claim r) with
  | Some a => verify (rootHash r) (claimerSignature r) a
  | None => false
  end.

(** Modelled from the spec: the verifier of section 4.4 (the
    repository's [RequestForAttestation.verifyData]): the surviving
    units, then the root hash recomputed from the claim hashes and the
    claim hashes against the entries of the nonce map, then the
    signature.  A failing unit throws; a request that is not consistent
    in its root hash, its claim hashes or its signature is answered with
    [false]. *)
Definition verifyData (r : RequestForAttestation) : Result bool :=
  _ ← match owner (claim r) with
      | Some a => verifyUnit r OwnerUnit (Js.Str a)
      | None => Ok tt
      end;
  _ ← mapR (fun kv => verifyUnit r (PropertyUnit (fst kv)) (snd kv))
        (map_to_list (contents (claim r)));
  if negb (String.eqb
             (calculateRootHash (claimHashes r) (legitimations r)
                (delegationId r))
             (rootHash r))
  then Ok false
  else if negb (claimHashesCovered r)
  then Ok false
  else Ok (verifySignature r).
End WithPrimitives.

Definition with_contents (c : Claim) (cs : gmap string Js.value) : Claim :=
  {| cTypeHash := cTypeHash c; owner := owner c; contents := cs |}.

Definition with_claim_and_nonces (r : RequestForAttestation) (c : Claim)
    (m : gmap (option string) NonceEntry) : RequestForAttestation :=
  {| claim := c;
     claimNonceMap := m;
     claimHashes := claimHashes r;
     claimerSignature := claimerSignature r;
     rootHash := rootHash r;
     legitimations := legitimations r;
     delegationId := delegationId r |}.

Definition without_nonce (e : NonceEntry) : NonceEntry :=
  {| hash := hash e; nonce := None |}.

(** Modelled from the spec: the redaction of one property.  Its value
    leaves [contents] and its nonce leaves the nonce map, where the
    digest of the entry stays, as the repository's tests observe it; the
    root hash, the claim hashes and the signature are not touched. *)
Definition removeClaimProperty (k : PropertyName) (r : RequestForAttestation)
    : RequestForAttestation :=
  with_claim_and_nonces r
    (with_contents (claim r) (delete k (contents (claim r))))
    (alter without_nonce (PropertyUnit k) (claimNonceMap r)).

(** Modelled from the spec: [removeClaimProperties] of section 4.3. *)
Definition removeClaimProperties (names : gset PropertyName)
    (r : RequestForAttestation) : RequestForAttestation :=
  foldr removeClaimProperty r (elements names).






End Engine.

(** ** Further notions on JavaScript values *)

Module JsMore.
Import Js.

(** [typeof v === 'string' && v]: a string that is not empty. *)
Definition is_nonempty_string (v : value) : bool :=
  match v with
  | Str s => negb (String.eqb s "")
  | _ => false
  end.

(** [s === v] for a string [s]. *)
Definition str_strict_eq (s : string) (v : value) : bool :=
  match v with
  | Str s' => String.eqb s s'
  | _ => false
  end.

End JsMore.

(** ** Results over the errors of one module *)

(** A [throw] of an error of type [E], or a [return]. *)
Inductive Outcome (E A : Type) : Type :=
  | Return (a : A)
  | Raise (e : E).
Arguments Return {E A} a.
Arguments Raise {E A} e.

#[global] Instance Outcome_bind {E : Type} : MBind (Outcome E) :=
  fun A B f m =>
    match m with
    | Return a => f a
    | Raise e => Raise e
    end.

(** ** CType utilities *)

Module CTypeUtils.
Import Js JsMore.

(** The errors of [SDKErrors] that [CTypeUtils] throws with their
    arguments; [Common] is an error of the utilities above or of a
    collaborator. *)
Inductive CTypeExn : Type :=
  | ERROR_OBJECT_MALFORMED
  | ERROR_HASH_MALFORMED (hash : value) (type : string)
  | ERROR_CTYPE_ID_NOT_MATCHING (fromSchema : string) (provided : value)
  | ERROR_CTYPE_OWNER_TYPE
  | ERROR_COMPRESS_OBJECT (object : value) (type : string)
  | Common (e : Exn).

Definition lift {A : Type} (m : Result A) : Outcome CTypeExn A :=
  match m with
  | Ok a => Return a
  | Throw e => Raise (Common e)
  end.

Definition getIdForCTypeHash (hash : string) : string :=
  ("kilt:ctype:" ++ hash)%string.

Section WithCollaborators.
(** [ajv.validate(schema, object)] of an [Ajv] that knows the meta
    schema: what it returns and what it leaves in [ajv.errors] ([null]
    is [None]). *)
Variable ajv_validate :
  value -> value -> value -> Result (value * option (list value)).
(** The models of [CTypeSchema]. *)
Variable CTypeModel : value.
Variable CTypeWrapperModel : value.
(** [Crypto.hashObjectAsStr] *)
Variable hashObjectAsStr : value -> string.
Variable validateAddress : value -> string -> Result value.
(** [getOwner] of [CType.chain]: an address or [null]. *)
Variable getOwner : value -> Attestation.Promise (option string).

(** The callback of [ajv.errors.forEach]: the message of an error is
    pushed when it is a string. *)
Definition push_message (messages : list value) (error : value)
    : Result (list value) :=
  message ← get error "message";
  if String.eqb (typeof message) "string"
  then Ok (messages ++ [message])
  else Ok messages.

Fixpoint push_messages (messages : list value) (errors : list value)
    : Result (list value) :=
  match errors with
  | [] => Ok messages
  | error :: rest =>
      messages' ← push_message messages error;
      push_messages messages' rest
  end.

(** [verifySchemaWithErrors(object, schema, messages?)]: the boolean it
    returns and the [messages] array as it leaves it. *)
Definition verifySchemaWithErrors (object schema : value)
    (messages : option (list value)) : Result (bool * option (list value)) :=
  '(result, errors) ← ajv_validate CTypeModel schema object;
  messages' ← match errors, messages with
              | Some errors, Some messages =>
                  if negb (truthy result)
                  then Some <$> push_messages messages errors
                  else Ok (Some messages)
              | _, _ => Ok messages
              end;
  Ok (truthy result, messages').

Definition verifySchema (object schema : value) : Result bool :=
  fst <$> verifySchemaWithErrors object schema None.

Definition verifyClaimStructure (claimContents schema : value)
    : Outcome CTypeExn bool :=
  ok ← lift (verifySchema schema CTypeModel);
  if negb (ok : bool) then Raise ERROR_OBJECT_MALFORMED
  else lift (verifySchema claimContents schema).

(** [await getOwner(ctype.hash)] and what follows it. *)
Definition verifyStored (ctype : value) : Attestation.Promise bool :=
  match get ctype "hash" with
  | Throw _ => Attestation.Rejected "TypeError"
  | Ok hash =>
      match getOwner hash with
      | Attestation.Rejected reason => Attestation.Rejected reason
      | Attestation.Resolved owner =>
          Attestation.Resolved
            (match owner with
             | Some _ => true
             | None => false
             end)
      end
  end.

Definition verifyOwner (ctype : value) : Attestation.Promise bool :=
  match get ctype "hash" with
  | Throw _ => Attestation.Rejected "TypeError"
  | Ok hash =>
      match getOwner hash with
      | Attestation.Rejected reason => Attestation.Rejected reason
      | Attestation.Resolved owner =>
          match owner with
          | Some a =>
              if truthy (Str a)
              then match get ctype "owner" with
                   | Ok o => Attestation.Resolved (str_strict_eq a o)
                   | Throw _ => Attestation.Rejected "TypeError"
                   end
              else Attestation.Resolved false
          | None => Attestation.Resolved false
          end
      end
  end.

Definition getHashForSchema (schema : value) : Result string :=
  schema' ← get schema "$schema";
  properties ← get schema "properties";
  title ← get schema "title";
  type ← get schema "type";
  let hashVal :=
    Obj [("$schema", schema'); ("properties", properties);
         ("title", title); ("type", type)] in
  Ok (hashObjectAsStr hashVal).

Definition getIdForSchema (schema : value) : Result string :=
  getIdForCTypeHash <$> getHashForSchema schema.

(** The owner of a CType is [null] or a string that the address
    validator answers with a truthy value. *)
Definition owner_refused (owner : value) : Result bool :=
  if String.eqb (typeof owner) "string"
  then valid ← validateAddress owner "CType owner"; Ok (negb (truthy valid))
  else Ok (negb (is_null owner)).

Definition errorCheck (input : value) : Outcome CTypeExn unit :=
  ok ← lift (verifySchema input CTypeWrapperModel);
  if negb (ok : bool) then Raise ERROR_OBJECT_MALFORMED else
  schema ← lift (get input "schema");
  hash ← lift (get input "hash");
  if negb (truthy schema) then Raise (ERROR_HASH_MALFORMED hash "CType") else
  fromSchema ← lift (getHashForSchema schema);
  if negb (str_strict_eq fromSchema hash)
  then Raise (ERROR_HASH_MALFORMED hash "CType") else
  id ← lift (getIdForSchema schema);
  id' ← lift (get schema "$id");
  if negb (str_strict_eq id id')
  then Raise (ERROR_CTYPE_ID_NOT_MATCHING id id') else
  owner ← lift (get input "owner");
  refused ← lift (owner_refused owner);
  if (refused : bool) then Raise ERROR_CTYPE_OWNER_TYPE else Return tt.

Definition compressSchema (cTypeSchema : value) : Outcome CTypeExn value :=
  id ← lift (get cTypeSchema "$id");
  schema ← lift (get cTypeSchema "$schema");
  title ← lift (get cTypeSchema "title");
  properties ← lift (get cTypeSchema "properties");
  type ← lift (get cTypeSchema "type");
  if negb (truthy id) || negb (truthy schema) || negb (truthy title)
     || negb (truthy properties) || negb (truthy type)
  then Raise (ERROR_COMPRESS_OBJECT cTypeSchema "cTypeSchema") else
  let sortedCTypeSchema := Jsonabc.sortObj cTypeSchema in
  id ← lift (get sortedCTypeSchema "$id");
  schema ← lift (get sortedCTypeSchema "$schema");
  title ← lift (get sortedCTypeSchema "title");
  properties ← lift (get sortedCTypeSchema "properties");
  type ← lift (get sortedCTypeSchema "type");
  Return (Arr [id; schema; title; properties; type]).

Definition decompressSchema (cTypeSchema : value) : Outcome CTypeExn value :=
  match cTypeSchema with
  | Arr elems =>
      if negb (length elems =? 5)%nat
      then Raise (Common (ERROR_DECOMPRESSION_ARRAY "cTypeSchema"))
      else Return (Obj [("$id", index elems 0);
                        ("$schema", index elems 1);
                        ("title", index elems 2);
                        ("properties", index elems 3);
                        ("type", index elems 4)])
  | _ => Raise (Common (ERROR_DECOMPRESSION_ARRAY "cTypeSchema"))
  end.

Definition compress (cType : value) : Outcome CTypeExn value :=
  _ ← errorCheck cType;
  hash ← lift (get cType "hash");
  owner ← lift (get cType "owner");
  schema ← lift (get cType "schema");
  schema' ← compressSchema schema;
  Return (Arr [hash; owner; schema']).

Definition decompress (cType : value) : Outcome CTypeExn value :=
  match cType with
  | Arr elems =>
      if negb (length elems =? 3)%nat
      then Raise (Common (ERROR_DECOMPRESSION_ARRAY "CType"))
      else
        schema ← decompressSchema (index elems 2);
        Return (Obj [("hash", index elems 0);
                     ("owner", index elems 1);
                     ("schema", schema)])
  | _ => Raise (Common (ERROR_DECOMPRESSION_ARRAY "CType"))
  end.
End WithCollaborators.

Definition schema_keys : list string :=
  ["$id"; "$schema"; "title"; "properties"; "type"].

Definition ctype_keys : list string := ["hash"; "owner"; "schema"].

(** The test at the head of [compressSchema]: the five fields are all
    truthy. *)
Definition five_truthy (s : value) : bool :=
  forallb (fun k => truthy (RequestForAttestationUtils.field s k)) schema_keys.

(** The schema object that [decompressSchema] builds from the fields of
    [s], each sorted as [compressSchema] leaves it. *)
Definition sorted_schema (s : value) : value :=
  Obj (map (fun k => (k, Jsonabc.sortObj (RequestForAttestationUtils.field s k)))
         schema_keys).

End CTypeUtils.

(** ** Public identities *)

Module PublicIdentity.
Import Js JsMore.

(** [throw Error()], or an error of the runtime or of a collaborator. *)
Inductive IdentityExn : Type :=
  | Error
  | Common (e : Exn).

Definition lift {A : Type} (m : Result A) : Outcome IdentityExn A :=
  match m with
  | Ok a => Return a
  | Throw e => Raise (Common e)
  end.

Record PublicIdentity : Type := {
  address : string;
  boxPublicKeyAsHex : value;
  serviceAddress : value
}.

(** The fields of [IDid] that [resolveFromDid] reads; the document store
    may be missing. *)
Record IDid : Type := {
  identifier : string;
  publicBoxKey : string;
  documentStore : option string
}.

(** What [for (const o of list)] iterates over: the elements of an
    array, the characters of a string; other values are not iterable. *)
Definition iterate (iterable : value) : Result (list value) :=
  match iterable with
  | Arr elems => Ok elems
  | Str s => Ok (map Str (chars s))
  | _ => Throw TypeError
  end.

(** The loop of [getJSONProperty]: the property of the first element
    whose [filterKey] is truthy and is [filterValue]; [Error] when the
    list is exhausted. *)
Fixpoint search (filterKey filterValue property : string) (items : list value)
    : Outcome IdentityExn value :=
  match items with
  | [] => Raise Error
  | o :: rest =>
      v ← lift (get o filterKey);
      if truthy v && str_strict_eq filterValue v
      then lift (get o property)
      else search filterKey filterValue property rest
  end.

Definition getJSONProperty (did : value)
    (listProperty filterKey filterValue property : string)
    : Outcome IdentityExn value :=
  list ← lift (get did listProperty);
  if negb (truthy list) then Raise Error else
  items ← lift (iterate list);
  search filterKey filterValue property items.

Definition describe (e : Exn) : string :=
  match e with
  | TypeError => "TypeError"
  | ForeignError msg => msg
  | _ => "SDKError"
  end.

Section WithDid.
(** The constants of [did/Did] and the helper of [did/Did.utils]. *)
Variable IDENTIFIER_PREFIX : string.
Variable KEY_TYPE_ENCRYPTION : string.
Variable SERVICE_KILT_MESSAGING : string.
Variable getAddressFromIdentifier : string -> Result string.
(** [Did.queryByIdentifier], the resolver handed in, and
    [encodeURIComponent]. *)
Variable queryByIdentifier : string -> Attestation.Promise (option IDid).
Variable resolve : string -> Attestation.Promise value.
Variable encodeURIComponent : string -> string.

(** The first argument of the constructor in [fromDidDocument];
    [startsWith] exists on strings only. *)
Definition addressOf (id : value) : Outcome IdentityExn string :=
  match id with
  | Str s =>
      if String.prefix IDENTIFIER_PREFIX s
      then lift (getAddressFromIdentifier s)
      else Return s
  | _ => Raise (Common TypeError)
  end.

(** The body of the [try] of [fromDidDocument]. *)
Definition buildFromDidDocument (didDocument : value)
    : Outcome IdentityExn PublicIdentity :=
  id ← lift (get didDocument "id");
  address ← addressOf id;
  key ← getJSONProperty didDocument "publicKey" "type" KEY_TYPE_ENCRYPTION
          "publicKeyHex";
  service ← getJSONProperty didDocument "service" "type"
              SERVICE_KILT_MESSAGING "serviceEndpoint";
  Return {| address := address;
            boxPublicKeyAsHex := key;
            serviceAddress := service |}.

(** [fromDidDocument]: whatever is thrown is caught and [undefined]
    returned. *)
Definition fromDidDocument (didDocument : value) : option PublicIdentity :=
  match buildFromDidDocument didDocument with
  | Return identity => Some identity
  | Raise _ => None
  end.

Definition uniresolver (identifier : string) : string :=
  ("https://uniresolver.io/1.0/identifiers/"
   ++ encodeURIComponent identifier)%string.

(** [new PublicIdentity(getAddressFromIdentifier(did.identifier),
    did.publicBoxKey)], in an [async] function: a throw rejects. *)
Definition fromChain (did : IDid)
    : Attestation.Promise (option PublicIdentity) :=
  match getAddressFromIdentifier (identifier did) with
  | Ok a =>
      Attestation.Resolved
        (Some {| address := a;
                 boxPublicKeyAsHex := Str (publicBoxKey did);
                 serviceAddress := Undefined |})
  | Throw e => Attestation.Rejected (describe e)
  end.

Definition resolveFromDid (identifier : string)
    : Attestation.Promise (option PublicIdentity) :=
  if String.prefix IDENTIFIER_PREFIX identifier
  then
    match queryByIdentifier identifier with
    | Attestation.Rejected reason => Attestation.Rejected reason
    | Attestation.Resolved None => Attestation.Resolved None
    | Attestation.Resolved (Some did) =>
        let didDocument :=
          match documentStore did with
          | Some store =>
              if truthy (Str store) then resolve store
              else Attestation.Resolved Undefined
          | None => Attestation.Resolved Undefined
          end in
        match didDocument with
        | Attestation.Rejected reason => Attestation.Rejected reason
        | Attestation.Resolved didDocument =>
            if truthy didDocument
            then Attestation.Resolved (fromDidDocument didDocument)
            else fromChain did
        end
    end
  else
    match resolve (uniresolver identifier) with
    | Attestation.Rejected reason => Attestation.Rejected reason
    | Attestation.Resolved didResult =>
        if truthy didResult
        then match get didResult "didDocument" with
             | Ok didDocument =>
                 if truthy didDocument
                 then Attestation.Resolved (fromDidDocument didDocument)
                 else Attestation.Resolved None
             | Throw e => Attestation.Rejected (describe e)
             end
        else Attestation.Resolved None
    end.
End WithDid.

End PublicIdentity.

(** ** Concrete instances *)

Module Examples.
Import Js.

(** Validators that accept everything, and a verifier that does. *)
Definition accept : value -> string -> Result value :=
  fun _ _ => Ok (Bool true).
Definition verified : value -> Result value := fun _ => Ok (Bool true).

Definition claim_of (contents : value) (owner : string) : value :=
  Obj [("cTypeHash", Str "0xctype"); ("contents", contents);
       ("owner", Str owner)].

Definition request_of (claim legitimations delegationId : value) : value :=
  Obj [("claim", claim);
       ("claimNonceMap", Obj [("0xdigest-a", Str "nonce-a")]);
       ("claimerSignature", Str "0xsignature");
       ("claimHashes", Arr [Str "0xdigest-a"; Str "0xdigest-owner"]);
       ("rootHash", Str "0xroot");
       ("legitimations", legitimations);
       ("delegationId", delegationId)].

(** Bob's claim, its keys out of order. *)
Definition contents_bca : value :=
  Obj [("b", Str "b"); ("c", Str "c"); ("a", Str "a")].

(** Modelled from the spec: the codec of [AttestedClaim.utils] and
    [Attestation.utils], an attested claim being the pair of a request
    and its attestation and its encoding the pair of their encodings,
    the attestation as [claimHash, cTypeHash, owner, revoked,
    delegationId]. *)
Definition Attestation_compress (a : value) : Result value :=
  claimHash ← get a "claimHash";
  cTypeHash ← get a "cTypeHash";
  owner ← get a "owner";
  revoked ← get a "revoked";
  delegationId ← get a "delegationId";
  Ok (Arr [claimHash; cTypeHash; owner; revoked; delegationId]).

Definition Attestation_decompress (a : value) : Result value :=
  match a with
  | Arr [claimHash; cTypeHash; owner; revoked; delegationId] =>
      Ok (Obj [("claimHash", claimHash); ("cTypeHash", cTypeHash);
               ("owner", owner); ("revoked", revoked);
               ("delegationId", delegationId)])
  | _ => Throw (ERROR_DECOMPRESSION_ARRAY "Attestation")
  end.

Definition AttestedClaim_compress (request_compress : value -> Result value)
    (attestedClaim : value) : Result value :=
  request ← get attestedClaim "request";
  request' ← request_compress request;
  attestation ← get attestedClaim "attestation";
  attestation' ← Attestation_compress attestation;
  Ok (Arr [request'; attestation']).

Definition AttestedClaim_decompress (request_decompress : value -> Result value)
    (attestedClaim : value) : Result value :=
  match attestedClaim with
  | Arr [request; attestation] =>
      request' ← request_decompress request;
      attestation' ← Attestation_decompress attestation;
      Ok (Obj [("request", request'); ("attestation", attestation')])
  | _ => Throw (ERROR_DECOMPRESSION_ARRAY "Attested Claim")
  end.

(** The codec of requests without legitimations, and with it the codec
    of the legitimations one level down. *)
Definition no_codec : value -> Result value := fun _ => Throw TypeError.

Definition legitimation_compress : value -> Result value :=
  AttestedClaim_compress
    (RequestForAttestationUtils.compress accept accept verified no_codec).

Definition legitimation_decompress : value -> Result value :=
  AttestedClaim_decompress (RequestForAttestationUtils.decompress no_codec).

Definition legitimation_charlie : value :=
  Obj [("request", request_of (claim_of (Obj []) "alice") (Arr []) Null);
       ("attestation",
        Obj [("claimHash", Str "0xroot"); ("cTypeHash", Str "0xctype");
             ("owner", Str "charlie"); ("revoked", Bool false);
             ("delegationId", Null)])].

(** Bob's request over [{b, c, a}] with Charlie's legitimation. *)
Definition request_bob : value :=
  request_of (claim_of contents_bca "bob") (Arr [legitimation_charlie]) Null.

(** A compressed request whose claim slot is not an array. *)
Definition compressed_bad_claim : value :=
  Arr [Str "claim"; Obj []; Str "0xsignature"; Arr []; Str "0xroot";
       Arr []; Null].

(** A compressed request that lost its last field. *)
Definition compressed_short : value :=
  Arr [Arr [Obj []; Str "0xctype"; Str "bob"]; Obj []; Str "0xsignature";
       Arr []; Str "0xroot"; Arr []].

(** A request whose legitimations are an object, not an array. *)
Definition request_legitimations_object : value :=
  request_of (claim_of contents_bca "bob") (Obj []) Null.

(** A request whose delegation id is a number. *)
Definition request_delegation_number : value :=
  request_of (claim_of contents_bca "bob") (Arr []) (Num 42).

Definition attestation_alice : Attestation.Attestation :=
  {| Attestation.claimHash := "0xroot";
     Attestation.cTypeHash := "0xctype";
     Attestation.owner := "alice";
     Attestation.revoked := false;
     Attestation.delegationId := None |}.

(** A ledger that holds Alice's attestation and nothing else. *)
Definition ledger_example (h : string)
    : Attestation.Promise (option Attestation.Attestation) :=
  if String.eqb h "0xroot"
  then Attestation.Resolved (Some attestation_alice)
  else Attestation.Resolved None.

End Examples.

(** ** A concrete engine *)

Module EngineExamples.
Import Engine.

(** A hash that wraps its input, a plain serializer, a combination that
    lists its parts, and signatures that name the message and the key:
    enough to run the engine on concrete requests. *)
Definition toy_H (s : string) : Digest := ("H(" ++ s ++ ")")%string.

Fixpoint toy_serialize (v : Js.value) : string :=
  match v with
  | Js.Undefined => "undefined"
  | Js.Null => "null"
  | Js.Bool b => if b then "true" else "false"
  | Js.Num n => pretty n
  | Js.Str s => s
  | Js.Arr elems =>
      ("[" ++ String.concat "," (map toy_serialize elems) ++ "]")%string
  | Js.Obj props =>
      ("{" ++ String.concat ","
                (map (fun kv => (fst kv ++ ":" ++ toy_serialize (snd kv))%string)
                   props)
           ++ "}")%string
  end.

Definition toy_combine (hashes : gset string) (legitimations : list Digest)
    (delegationId : option Digest) : string :=
  (String.concat "," (elements hashes) ++ "|"
   ++ String.concat "," legitimations ++ "|"
   ++ default "" delegationId)%string.

Definition toy_sign (m : Digest) (sk : SecretKey) : Signature :=
  ("sig(" ++ m ++ "," ++ sk ++ ")")%string.

Definition toy_verify (m : Digest) (s : Signature) (a : Address) : bool :=
  String.eqb s (toy_sign m ("sk-" ++ a)%string).

Definition bob : Identity := {| address := "bob"; secretKey := "sk-bob" |}.

Definition claim_abc : Claim :=
  {| cTypeHash := "0xctype";
     owner := Some "bob";
     contents := {[ "a" := Js.Str "a"; "b" := Js.Str "b"; "c" := Js.Str "c" ]} |}.

Definition salts_abc (u : UnitKey) : Salt :=
  ("nonce-" ++ default "owner" u)%string.

(** The request over [{a: 'a', b: 'b', c: 'c'}] built by Bob. *)
Definition request_abc : RequestForAttestation :=
  buildRequest toy_H toy_serialize toy_combine toy_sign claim_abc bob
    salts_abc [] None.






End EngineExamples.

(** ** Further concrete instances *)

Module MoreExamples.
Import Js.

(** A hash validator that answers [true] on the strings that start with
    0x and [false] on the rest. *)
Definition hex (d : string) : bool := String.prefix "0x" d.

Definition validateHash_hex : value -> string -> Result value :=
  fun h _ =>
    match h with
    | Str d => Ok (Bool (hex d))
    | _ => Ok (Bool false)
    end.

(** A request whose nonce map has a digest that is not hexadecimal. *)
Definition nonces_mixed : list (string * value) :=
  [("0xdigest-a", Str "nonce-a"); ("digest-b", Str "nonce-b")].

Definition request_mixed_nonces : value :=
  Obj [("claim", Examples.claim_of Examples.contents_bca "bob");
       ("claimNonceMap", Obj nonces_mixed);
       ("legitimations", Arr [])].

(** Bob's request without legitimations, compressed with the contents
    in the order they were written in. *)
Definition compressed_bob : value :=
  Arr [Arr [Examples.contents_bca; Str "0xctype"; Str "bob"];
       Obj [("0xdigest-a", Str "nonce-a")];
       Str "0xsignature";
       Arr [Str "0xdigest-a"; Str "0xdigest-owner"];
       Str "0xroot";
       Arr [];
       Null].

(** A validator that accepts every object and one that refuses every
    object with three errors, one of them without a string message and
    one without a message. *)
Definition ajv_accept
    : value -> value -> value -> Result (value * option (list value)) :=
  fun _ _ _ => Ok (Bool true, None).

Definition ajv_refuse
    : value -> value -> value -> Result (value * option (list value)) :=
  fun _ _ _ =>
    Ok (Bool false,
        Some [Obj [("message", Str "should be object")];
              Obj [("message", Num 3)];
              Obj [("keyword", Str "type")]]).

Definition hash_constant : value -> string := fun _ => "0xschema".

Definition schema_membership : value :=
  Obj [("type", Str "object");
       ("title", Str "membership");
       ("$schema", Str "http://kilt-protocol.org/draft-01/ctype#");
       ("properties", Obj [("name", Obj [("type", Str "string")])]);
       ("$id", Str "kilt:ctype:0xschema")].

Definition ctype_membership : value :=
  Obj [("schema", schema_membership);
       ("owner", Str "alice");
       ("hash", Str "0xschema")].

(** The identifiers of the ledger start with this prefix; the address
    is what follows it. *)
Definition prefix_kilt : string := "did:kilt:".
Definition key_type : string := "X25519Salsa20Poly1305Key2018".
Definition service_type : string := "KiltMessagingService".

Definition address_of_identifier (identifier : string) : Result string :=
  if String.prefix prefix_kilt identifier
  then Ok (String.substring 9 (String.length identifier - 9) identifier)
  else Throw (ForeignError "Not a KILT did")%string.

Definition key_signing : value :=
  Obj [("type", Str "Ed25519VerificationKey2018");
       ("publicKeyHex", Str "0xsign")].
Definition key_box : value :=
  Obj [("type", Str key_type); ("publicKeyHex", Str "0xbox")].
Definition key_box_later : value :=
  Obj [("type", Str key_type); ("publicKeyHex", Str "0xlater")].

Definition document_alice : value :=
  Obj [("id", Str "did:kilt:alice");
       ("publicKey", Arr [key_signing; key_box; key_box_later]);
       ("service",
        Arr [Obj [("type", Str service_type);
                  ("serviceEndpoint", Str "https://services.example/alice")]])].

(** A document that lacks the messaging service. *)
Definition document_bob : value :=
  Obj [("id", Str "did:kilt:bob");
       ("publicKey", Arr [key_box]);
       ("service", Arr [])].

Definition did_alice : PublicIdentity.IDid :=
  {| PublicIdentity.identifier := "did:kilt:alice";
     PublicIdentity.publicBoxKey := "0xbox";
     PublicIdentity.documentStore := None |}.

Definition did_bob : PublicIdentity.IDid :=
  {| PublicIdentity.identifier := "did:kilt:bob";
     PublicIdentity.publicBoxKey := "0xbox";
     PublicIdentity.documentStore := Some "https://store.example/bob" |}.

(** A ledger that knows Alice, without a document store, and Bob, with
    one. *)
Definition ledger_dids (identifier : string)
    : Attestation.Promise (option PublicIdentity.IDid) :=
  if String.eqb identifier "did:kilt:alice"
  then Attestation.Resolved (Some did_alice)
  else if String.eqb identifier "did:kilt:bob"
  then Attestation.Resolved (Some did_bob)
  else Attestation.Resolved None.

(** A resolver that knows Bob's store and, through the universal
    resolver, one foreign identifier. *)
Definition resolver (url : string) : Attestation.Promise value :=
  if String.eqb url "https://store.example/bob"
  then Attestation.Resolved document_bob
  else if String.eqb url
            "https://uniresolver.io/1.0/identifiers/did%3Aweb%3Aalice"
  then Attestation.Resolved (Obj [("didDocument", document_alice)])
  else Attestation.Resolved Undefined.

(** [encodeURIComponent] on identifiers made of letters, digits and
    colons: the colon is the one character of these that it escapes. *)
Fixpoint escape_colons (s : string) : string :=
  match s with
  | EmptyString => EmptyString
  | String c rest =>
      if String.eqb (String c EmptyString) ":"
      then ("%3A" ++ escape_colons rest)%string
      else String c (escape_colons rest)
  end.

Definition identity_alice : PublicIdentity.PublicIdentity :=
  {| PublicIdentity.address := "alice";
     PublicIdentity.boxPublicKeyAsHex := Str "0xbox";
     PublicIdentity.serviceAddress := Str "https://services.example/alice" |}.

Definition request_root : Attestation.IRequestForAttestation :=
  {| Attestation.hash := "0xroot";
     Attestation.claim := {| Attestation.cType := "0xctype" |};
     Attestation.req_delegationId := None |}.

Definition alice : Attestation.Identity := {| Attestation.address := "alice" |}.

(** Alice's attestation as a fresh, revoked copy would be. *)
Definition attestation_alice_revoked : Attestation.Attestation :=
  Attestation.new request_root alice (Some true).

End MoreExamples.

(** * Properties *)

(** ** JavaScript values: deep equality and key sorting *)

Module JsFacts.
Import Js Jsonabc.

Lemma assoc_Some_In k v ps : assoc k ps = Some v -> In (k, v) ps.
Proof.
  induction ps as [|[k' v'] ps IH]; simpl; [discriminate|].
  destruct (String.eqb_spec k k') as [->|Hne].
  - intros [= ->]. now left.
  - intros Hk. right. auto.
Qed.

Lemma assoc_NoDup k v ps :
  NoDup (map fst ps) -> In (k, v) ps -> assoc k ps = Some v.
Proof.
  induction ps as [|[k' v'] ps IH]; simpl; [contradiction|].
  intros Hnd [Heq|Hin].
  - injection Heq as -> ->. now rewrite String.eqb_refl.
  - apply NoDup_cons in Hnd as [Hfresh Hnd].
    destruct (String.eqb_spec k k') as [->|Hne].
    + exfalso. apply Hfresh. apply list_elem_of_In.
      change k' with (fst (k', v)). now apply in_map.
    + auto.
Qed.

Lemma wf_Obj ps :
  wf (Obj ps) = true ->
  NoDup (map fst ps) /\ forall k v, In (k, v) ps -> wf v = true.
Proof.
  simpl. intros [Hnd Hall]%andb_true_iff. split.
  - now apply bool_decide_eq_true in Hnd.
  - intros k v Hin. rewrite forallb_forall in Hall. exact (Hall _ Hin).
Qed.

Lemma wf_assoc ps k v : wf (Obj ps) = true -> assoc k ps = Some v -> wf v = true.
Proof.
  intros [_ Hall]%wf_Obj Hk. eapply Hall, assoc_Some_In, Hk.
Qed.

(** Position-wise equality of arrays, as a relation on the elements. *)
Lemma equal_Arr xs ys :
  equal (Arr xs) (Arr ys) = true <-> List.Forall2 (fun x y => equal x y = true) xs ys.
Proof.
  revert ys. induction xs as [|x xs IH]; intros [|y ys].
  - split; [constructor|reflexivity].
  - split; [discriminate|inversion 1].
  - split; [discriminate|inversion 1].
  - change (equal (Arr (x :: xs)) (Arr (y :: ys)))
      with (equal x y && equal (Arr xs) (Arr ys)).
    rewrite andb_true_iff. split.
    + intros [Hx Hrest]. constructor; [exact Hx|]. now apply IH.
    + inversion 1; subst. split; [assumption|]. now apply IH.
Qed.

Lemma equal_Obj ps qs :
  equal (Obj ps) (Obj qs) = true <->
  length ps = length qs
  /\ forall k v, In (k, v) ps -> exists w, assoc k qs = Some w /\ equal v w = true.
Proof.
  simpl. rewrite andb_true_iff, Nat.eqb_eq, forallb_forall. split.
  - intros [Hlen Hall]. split; [exact Hlen|]. intros k v Hin.
    specialize (Hall _ Hin). simpl in Hall.
    destruct (assoc k qs) as [w|]; [eauto|discriminate].
  - intros [Hlen Hall]. split; [exact Hlen|]. intros [k v] Hin. simpl.
    destruct (Hall _ _ Hin) as (w & -> & Hw). exact Hw.
Qed.

Lemma equal_refl v : wf v = true -> equal v v = true.
Proof.
  induction v as [| |b|n|s|elems IH|props IH] using value_ind; intros Hwf;
    try reflexivity.
  - now destruct b.
  - apply Z.eqb_refl.
  - apply String.eqb_refl.
  - apply equal_Arr. simpl in Hwf. rewrite forallb_forall in Hwf.
    induction IH as [|x xs Hx _ IHxs]; constructor.
    + apply Hx, Hwf. now left.
    + apply IHxs. intros y Hy. apply Hwf. now right.
  - apply wf_Obj in Hwf as [Hnd Hall]. apply equal_Obj. split; [reflexivity|].
    intros k v Hin. exists v. split; [now apply assoc_NoDup|].
    rewrite List.Forall_forall in IH. apply (IH (k, v) Hin). eauto.
Qed.

Lemma insert_by_key_Permutation kv l : Permutation (insert_by_key kv l) (kv :: l).
Proof.
  induction l as [|kv' l IH]; simpl; [reflexivity|].
  destruct (String.leb (fst kv) (fst kv')); [reflexivity|].
  rewrite IH. apply perm_swap.
Qed.

Lemma sort_by_key_Permutation l : Permutation (sort_by_key l) l.
Proof.
  induction l as [|kv l IH]; simpl; [reflexivity|].
  rewrite insert_by_key_Permutation. now constructor.
Qed.

(** Sorting the keys changes nothing for deep equality. *)
Lemma equal_sortObj v : wf v = true -> equal (sortObj v) v = true.
Proof.
  induction v as [| |b|n|s|elems IH|props IH] using value_ind; intros Hwf;
    try reflexivity.
  - now destruct b.
  - apply Z.eqb_refl.
  - apply String.eqb_refl.
  - cbn [sortObj]. apply equal_Arr. simpl in Hwf. rewrite forallb_forall in Hwf.
    induction IH as [|x xs Hx _ IHxs]; simpl; constructor.
    + apply Hx, Hwf. now left.
    + apply IHxs. intros y Hy. apply Hwf. now right.
  - apply wf_Obj in Hwf as [Hnd Hall]. cbn [sortObj]. apply equal_Obj. split.
    + rewrite (Permutation_length (sort_by_key_Permutation _)).
      apply length_map.
    + intros k v' Hin.
      apply (Permutation_in _ (sort_by_key_Permutation _)) in Hin.
      apply in_map_iff in Hin as ([k0 v] & [= <- <-] & Hin).
      exists v. split; [now apply assoc_NoDup|].
      rewrite List.Forall_forall in IH. apply (IH (k0, v) Hin). eauto.
Qed.

End JsFacts.

(** ** Permission bitset *)

Module DelegationDecoderFacts.
Import DelegationDecoder.

Lemma toInt32_mod (n : Z) : (toInt32 n mod 2 ^ 32 = n mod 2 ^ 32)%Z.
Proof.
  unfold toInt32. rewrite Zminus_mod_idemp_l. f_equal. lia.
Qed.

Lemma toInt32_testbit (n i : Z) :
  (0 <= i < 32)%Z -> Z.testbit (toInt32 n) i = Z.testbit n i.
Proof.
  intros Hi.
  rewrite <- (Z.mod_pow2_bits_low (toInt32 n) 32 i) by lia.
  rewrite toInt32_mod. apply Z.mod_pow2_bits_low. lia.
Qed.

Lemma land_pow2 (x k : Z) :
  (0 <= k)%Z ->
  Z.land x (2 ^ k) = if Z.testbit x k then (2 ^ k)%Z else 0%Z.
Proof.
  intros Hk. apply Z.bits_inj'. intros i Hi.
  rewrite Z.land_spec, Z.pow2_bits_eqb by lia.
  destruct (Z.eqb_spec k i) as [->|Hne].
  - destruct (Z.testbit x i) eqn:E.
    + rewrite Z.pow2_bits_eqb by lia. now rewrite Z.eqb_refl.
    + now rewrite Z.bits_0.
  - rewrite andb_false_r.
    destruct (Z.testbit x k).
    + rewrite Z.pow2_bits_eqb by lia. symmetry. now apply Z.eqb_neq.
    + now rewrite Z.bits_0.
Qed.

Lemma flag_pow2 (p : Permission) : flag p = (2 ^ bit p)%Z.
Proof. now destruct p. Qed.

Lemma bit_range (p : Permission) : (0 <= bit p < 32)%Z.
Proof. destruct p; simpl; lia. Qed.

Lemma toInt32_flag (p : Permission) : toInt32 (flag p) = flag p.
Proof. now destruct p. Qed.

(** The test [bitset & flag] is truthy exactly when the flag's bit of
    [bitset] is set. *)
Lemma flag_test (bitset : Z) (p : Permission) :
  Js.truthy (Js.Num (bitand bitset (flag p))) = Z.testbit bitset (bit p).
Proof.
  pose proof (bit_range p) as Hp.
  unfold bitand. rewrite toInt32_flag, flag_pow2, land_pow2 by lia.
  rewrite toInt32_testbit by lia. simpl.
  destruct (Z.testbit bitset (bit p)); [|reflexivity].
  apply negb_true_iff, Z.eqb_neq. destruct p; simpl; lia.
Qed.

Lemma testbit_land_flag (bitset : Z) (p : Permission) :
  Z.testbit bitset (bit p) = true <-> Z.land bitset (flag p) <> 0%Z.
Proof.
  pose proof (bit_range p) as Hp.
  rewrite flag_pow2, land_pow2 by lia.
  destruct (Z.testbit bitset (bit p)).
  - split; [intros _|reflexivity]. destruct p; simpl; lia.
  - split; [discriminate|congruence].
Qed.

(** C5. For every bitset, [decodePermissions] returns the permissions
    whose flag is set, ATTEST before DELEGATE: a permission is in the
    result exactly when the bitwise AND of the bitset with its flag is
    not zero, and 0b00, 0b01, 0b10, 0b11 decode to [], [ATTEST],
    [DELEGATE] and [ATTEST; DELEGATE]. *)
Theorem decodePermissions_exact (bitset : Z) :
  decodePermissions bitset
    = (if Z.testbit bitset 0 then [ATTEST] else [])
      ++ (if Z.testbit bitset 1 then [DELEGATE] else [])
  /\ (forall p, p ∈ decodePermissions bitset <-> Z.land bitset (flag p) <> 0%Z)
  /\ decodePermissions 0 = []
  /\ decodePermissions 1 = [ATTEST]
  /\ decodePermissions 2 = [DELEGATE]
  /\ decodePermissions 3 = [ATTEST; DELEGATE].
Proof.
  assert (Hlist : decodePermissions bitset
    = (if Z.testbit bitset 0 then [ATTEST] else [])
      ++ (if Z.testbit bitset 1 then [DELEGATE] else [])).
  { unfold decodePermissions.
    rewrite (flag_test bitset ATTEST), (flag_test bitset DELEGATE).
    change (bit ATTEST) with 0%Z. change (bit DELEGATE) with 1%Z.
    now destruct (Z.testbit bitset 0), (Z.testbit bitset 1). }
  split; [exact Hlist|]. split; [|repeat split; reflexivity].
  intros p. rewrite <- testbit_land_flag, Hlist.
  destruct p;
    [change (bit ATTEST) with 0%Z | change (bit DELEGATE) with 1%Z];
    destruct (Z.testbit bitset 0), (Z.testbit bitset 1); cbn [app];
    split; intros Hin; try reflexivity; try discriminate;
    repeat constructor;
    repeat match goal with
           | H : _ ∈ _ :: _ |- _ => apply elem_of_cons in H as [H|H]; try discriminate
           | H : _ ∈ [] |- _ => apply elem_of_nil in H; contradiction
           end.
Qed.

End DelegationDecoderFacts.

(** ** Attestation *)

Module AttestationFacts.
Import Attestation.

(** C10. An attestation constructed with the [revoked] argument
    omitted is not revoked, is owned by the attester's address, and
    carries the claim hash and the delegation id of the request. *)
Theorem new_not_revoked (request : IRequestForAttestation) (attester : Identity) :
  let a := new request attester None in
  revoked a = false
  /\ owner a = address attester
  /\ claimHash a = hash request
  /\ delegationId a = req_delegationId request.
Proof. repeat split. Qed.

(** C4. Once the ledger query has answered, [verify] resolves to a
    boolean, and that boolean is [true] exactly when the answer is an
    attestation owned by this attestation's owner and not revoked; an
    absent attestation, another owner or a revoked one resolve to
    [false], nothing is thrown. *)
Theorem verify_valid_iff (query : string -> Promise (option Attestation))
    (this : Attestation) (claimHash : option string)
    (answer : option Attestation) :
  query (default (Attestation.claimHash this) claimHash) = Resolved answer ->
  exists b,
    fst (verify query this claimHash) = Resolved b
    /\ (b = true <->
        exists a, answer = Some a /\ owner a = owner this /\ revoked a = false)
    /\ (answer = None -> b = false)
    /\ (forall a, answer = Some a -> owner a <> owner this -> b = false)
    /\ (forall a, answer = Some a -> revoked a = true -> b = false).
Proof.
  intros Hq. unfold verify. rewrite Hq.
  destruct answer as [a|]; simpl.
  - eexists; split; [reflexivity|].
    destruct (String.eqb_spec (owner a) (owner this)) as [Ho|Ho],
             (revoked a) eqn:Hr; simpl.
    all: repeat split; try discriminate; try congruence.
    all: try (intros (a' & [= <-] & ? & ?); congruence).
    intros _. exists a. auto.
  - eexists; split; [reflexivity|].
    repeat split; try discriminate; try congruence.
    intros (a' & [=] & _).
Qed.

(** Alice's attestation against a ledger that holds it. *)
Lemma verify_valid_iff_witness :
  exists b,
    fst (verify Examples.ledger_example Examples.attestation_alice None)
      = Resolved b
    /\ b = true.
Proof.
  destruct (verify_valid_iff Examples.ledger_example
              Examples.attestation_alice None
              (Some Examples.attestation_alice) eq_refl)
    as (b & Hb & Hiff & _).
  exists b. split; [exact Hb|].
  apply Hiff. exists Examples.attestation_alice. repeat split.
Defined.

End AttestationFacts.

(** ** Compression and its structural checks *)

Module RequestForAttestationUtilsFacts.
Import Js RequestForAttestationUtils JsFacts.

Lemma bind_Ok_inv {A B} (m : Result A) (f : A -> Result B) (b : B) :
  m ≫= f = Ok b -> exists a, m = Ok a /\ f a = Ok b.
Proof. destruct m as [a|e]; [eauto|discriminate]. Qed.

Lemma has_keys_Obj ks v :
  has_keys ks v = true ->
  exists ps, v = Obj ps /\ length ps = length ks
             /\ forall k, In k ks -> exists w, assoc k ps = Some w.
Proof.
  destruct v as [| | | | | |ps]; try discriminate. simpl.
  intros [Hlen Hall]%andb_true_iff. exists ps. split; [reflexivity|].
  split; [now apply Nat.eqb_eq|].
  intros k Hk. rewrite forallb_forall in Hall.
  specialize (Hall k Hk). apply bool_decide_eq_true in Hall as [w Hw]. eauto.
Qed.

Lemma get_Obj ps k v : assoc k ps = Some v -> get (Obj ps) k = Ok v.
Proof. intros Hk. simpl. now rewrite Hk. Qed.

(** *** The arity check of [decompress] *)

Lemma bad_arity_iff (x : value) :
  bad_arity x = true <-> ~ exists elems, x = Arr elems /\ length elems = 7%nat.
Proof.
  destruct x as [| | | | |elems|]; simpl;
    try (split; [intros _ (? & [=] & _)|reflexivity]).
  destruct (Nat.eqb_spec (length elems) 7) as [Hlen|Hlen]; simpl.
  - split; [discriminate|]. intros Hno. exfalso. apply Hno. eauto.
  - split; [|reflexivity]. intros _ (? & [= <-] & ?). contradiction.
Qed.

Lemma ClaimUtils_decompress_throws (x : value) (e : Exn) :
  ClaimUtils.decompress x = Throw e -> e = ERROR_DECOMPRESSION_ARRAY "Claim".
Proof.
  destruct x as [| | | | |elems|]; simpl; try (now intros [= <-]).
  destruct (negb _); [now intros [= <-]|discriminate].
Qed.

(** C6, as amended. [decompress] throws
    ERROR_DECOMPRESSION_ARRAY('Request for Attestation') whenever its
    argument is not an array of length 7, whatever the decoder of the
    nested fields would do, so before any field is decoded.  On an
    array of length 7 the check is passed and the outcome is that of
    decoding the fields in order: the same error kind can then only
    come out of a nested decoder, with type 'Claim' from the claim
    slot, or from the decoder of the legitimations. *)
Theorem decompress_arity_check (AttestedClaimUtils_decompress : value -> Result value)
    (x : value) :
  (bad_arity x = true <->
     ~ exists elems, x = Arr elems /\ length elems = 7%nat)
  /\ (bad_arity x = true ->
      decompress AttestedClaimUtils_decompress x
        = Throw (ERROR_DECOMPRESSION_ARRAY "Request for Attestation"))
  /\ (forall elems, x = Arr elems -> length elems = 7%nat ->
      decompress AttestedClaimUtils_decompress x
        = decompress_fields AttestedClaimUtils_decompress elems)
  /\ (forall elems e, x = Arr elems -> length elems = 7%nat ->
      decompress AttestedClaimUtils_decompress x = Throw e ->
      (ClaimUtils.decompress (index elems 0) = Throw e
       /\ e = ERROR_DECOMPRESSION_ARRAY "Claim")
      \/ decompressLegitimation AttestedClaimUtils_decompress (index elems 5)
         = Throw e).
Proof.
  split; [apply bad_arity_iff|]. split; [|split].
  - intros Hbad. unfold decompress. now rewrite Hbad.
  - intros elems -> Hlen. unfold decompress. simpl. now rewrite Hlen.
  - intros elems e -> Hlen. unfold decompress. simpl. rewrite Hlen. simpl.
    unfold decompress_fields.
    destruct (ClaimUtils.decompress (index elems 0)) as [claim|e0] eqn:Hclaim;
      simpl.
    + destruct (decompressLegitimation _ (index elems 5)) as [leg|e1];
        simpl; [discriminate|]. intros [= <-]. now right.
    + intros [= <-]. left. split; [reflexivity|].
      eapply ClaimUtils_decompress_throws, Hclaim.
Qed.

(** C6, the claim as stated fails: an array of length 7 whose claim
    slot is not an array makes [decompress] throw
    ERROR_DECOMPRESSION_ARRAY all the same, and so does one whose
    legitimation carries a request that is too short. *)
Lemma decompress_arity7_still_throws :
  bad_arity Examples.compressed_bad_claim = false
  /\ decompress Examples.no_codec Examples.compressed_bad_claim
     = Throw (ERROR_DECOMPRESSION_ARRAY "Claim")
  /\ let nested :=
       Arr [Arr [Obj []; Str "0xctype"; Str "bob"]; Obj [];
            Str "0xsignature"; Arr []; Str "0xroot";
            Arr [Arr [Examples.compressed_short; Arr []]]; Null] in
     bad_arity nested = false
     /\ decompress Examples.legitimation_decompress nested
        = Throw (ERROR_DECOMPRESSION_ARRAY "Request for Attestation").
Proof. repeat split. Qed.

(** *** The guards of [errorCheck] *)

(** The legitimations guard throws exactly on a falsy value. *)
Lemma check_legitimations_throws_iff (input legitimations : value) :
  get input "legitimations" = Ok legitimations ->
  (check_legitimations input = Throw ERROR_LEGITIMATIONS_NOT_PROVIDED
     <-> truthy legitimations = false)
  /\ (truthy legitimations = true -> check_legitimations input = Ok tt).
Proof.
  intros Hget. unfold check_legitimations. rewrite Hget. simpl.
  destruct (truthy legitimations) eqn:Htruthy; simpl.
  - split; [split; discriminate|reflexivity].
  - assert (isArray legitimations = false) as ->
      by (destruct legitimations; (reflexivity || discriminate)).
    simpl. split; [split; reflexivity|discriminate].
Qed.

(** C7, the code at the failing input.  A request whose legitimations
    are an object and not an array passes the legitimations guard and
    the whole of [errorCheck]; ERROR_LEGITIMATIONS_NOT_PROVIDED is not
    thrown, and [compress] fails later with a [TypeError]. *)
Theorem errorCheck_accepts_object_legitimations :
  get Examples.request_legitimations_object "legitimations" = Ok (Obj [])
  /\ isArray (Obj []) = false
  /\ check_legitimations Examples.request_legitimations_object = Ok tt
  /\ errorCheck Examples.accept Examples.accept Examples.verified
       Examples.request_legitimations_object = Ok tt
  /\ compress Examples.accept Examples.accept Examples.verified
       Examples.no_codec Examples.request_legitimations_object
     = Throw TypeError.
Proof. repeat split. Qed.

(** The delegation-id guard never throws its error. *)
Lemma check_delegationId_never_throws (input : value) :
  check_delegationId input <> Throw ERROR_DELEGATION_ID_TYPE.
Proof.
  unfold check_delegationId.
  destruct (get input "delegationId") as [d|e] eqn:Hget; simpl.
  - unfold Js.not. simpl. rewrite andb_false_r. discriminate.
  - destruct input; simpl in Hget; congruence.
Qed.

(** C8, the code at the failing input.  A request whose delegation id
    is the number 42, neither a string nor null, passes the
    delegation-id guard and the whole of [errorCheck]; the guard throws
    ERROR_DELEGATION_ID_TYPE on no input at all. *)
Theorem errorCheck_accepts_number_delegationId :
  get Examples.request_delegation_number "delegationId" = Ok (Num 42)
  /\ check_delegationId Examples.request_delegation_number = Ok tt
  /\ errorCheck Examples.accept Examples.accept Examples.verified
       Examples.request_delegation_number = Ok tt
  /\ forall input, check_delegationId input <> Throw ERROR_DELEGATION_ID_TYPE.
Proof. repeat split. apply check_delegationId_never_throws. Qed.

(** *** The round trip *)

Section RoundTrip.
Variable validateAddress : value -> string -> Result value.
Variable validateHash : value -> string -> Result value.
Variable verifyData : value -> Result value.
Variable AttestedClaimUtils_compress : value -> Result value.
Variable AttestedClaimUtils_decompress : value -> Result value.

Abbreviation errorCheck := (errorCheck validateAddress validateHash verifyData).
Abbreviation compress :=
  (compress validateAddress validateHash verifyData
     AttestedClaimUtils_compress).
Abbreviation decompress := (decompress AttestedClaimUtils_decompress).
Abbreviation legitimation_roundtrips :=
  (legitimation_roundtrips AttestedClaimUtils_compress
     AttestedClaimUtils_decompress).

Lemma errorCheck_claim ps claim :
  assoc "claim" ps = Some claim ->
  errorCheck (Obj ps) = Ok tt ->
  ClaimUtils.errorCheck validateAddress validateHash claim = Ok tt.
Proof.
  intros Hclaim Herr. unfold RequestForAttestationUtils.errorCheck in Herr.
  apply bind_Ok_inv in Herr as ([] & Hcheck & _).
  unfold check_claim in Hcheck. rewrite (get_Obj _ _ _ Hclaim) in Hcheck.
  simpl in Hcheck. now destruct (truthy claim).
Qed.

Lemma legitimations_roundtrip legs :
  List.Forall legitimation_roundtrips legs ->
  exists cs legs',
    compressLegitimation AttestedClaimUtils_compress (Arr legs) = Ok (Arr cs)
    /\ decompressLegitimation AttestedClaimUtils_decompress (Arr cs)
       = Ok (Arr legs')
    /\ equal (Arr legs') (Arr legs) = true.
Proof.
  intros Hall. unfold compressLegitimation, decompressLegitimation, array_map.
  induction Hall as [|l legs (c & l' & Hc & Hd & Heq) _ (cs & legs' & Hcs & Hds & Heqs)].
  - exists [], []. repeat split.
  - exists (c :: cs), (l' :: legs').
    assert (Hcs' : mapR AttestedClaimUtils_compress legs = Ok cs)
      by (destruct (mapR _ legs); simpl in Hcs; congruence).
    assert (Hds' : mapR AttestedClaimUtils_decompress cs = Ok legs')
      by (destruct (mapR _ cs); simpl in Hds; congruence).
    split; [|split].
    + simpl. now rewrite Hc, Hcs'.
    + simpl. now rewrite Hd, Hds'.
    + change (equal l' l && equal (Arr legs') (Arr legs) = true).
      now rewrite Heq, Heqs.
Qed.

(** C3. A request of the shape of [IRequestForAttestation] that
    passes [errorCheck], and whose legitimations survive the codec of
    attested claims, is compressed and decompressed back to an equal
    request: [compress] returns an array, [decompress] returns from it
    the object with the same fields, the contents of the claim with
    their keys sorted, and that object equals the request as JavaScript
    objects are equal, field by field whatever the order of the keys. *)
Theorem decompress_compress (r : value) (legs : list value) :
  is_request r = true ->
  get r "legitimations" = Ok (Arr legs) ->
  errorCheck r = Ok tt ->
  List.Forall legitimation_roundtrips legs ->
  exists c legs',
    compress r = Ok c
    /\ decompress c = Ok (decompressed_form r legs')
    /\ equal (decompressed_form r legs') r = true.
Proof.
  unfold is_request.
  intros [[[Hwf Hkeys]%andb_true_iff Hclaim]%andb_true_iff _]%andb_true_iff
    Hlegs Herr Hall.
  apply has_keys_Obj in Hkeys as (ps & -> & Hlen & Hks).
  assert (Hk : forall k, In k request_keys ->
            exists w, assoc k ps = Some w /\ wf w = true).
  { intros k Hin. destruct (Hks k Hin) as [w Hw]. exists w.
    split; [exact Hw|]. eapply wf_assoc; eassumption. }
  destruct (Hk "claim") as (claim & Hc & Hwc); [simpl; tauto|].
  destruct (Hk "claimNonceMap") as (nonces & Hn & Hwn); [simpl; tauto|].
  destruct (Hk "claimerSignature") as (sig & Hs & Hws); [simpl; tauto|].
  destruct (Hk "claimHashes") as (hashes & Hh & Hwh); [simpl; tauto|].
  destruct (Hk "rootHash") as (root & Hr & Hwr); [simpl; tauto|].
  destruct (Hk "legitimations") as (leg & Hl & Hwl); [simpl; tauto|].
  destruct (Hk "delegationId") as (del & Hd & Hwd); [simpl; tauto|].
  rewrite (get_Obj _ _ _ Hl) in Hlegs. injection Hlegs as ->.
  rewrite (get_Obj _ _ _ Hc) in Hclaim.
  apply has_keys_Obj in Hclaim as (cs & -> & Hclen & Hcks).
  destruct (Hcks "contents") as (contents & Hcc); [simpl; tauto|].
  destruct (Hcks "cTypeHash") as (cTypeHash & Hct); [simpl; tauto|].
  destruct (Hcks "owner") as (owner & Hco); [simpl; tauto|].
  pose proof (errorCheck_claim _ _ Hc Herr) as Hcerr.
  destruct (legitimations_roundtrip legs Hall)
    as (cls & legs' & Hcomp & Hdecomp & Hleq).
  assert (Hform : decompressed_form (Obj ps) legs'
            = Obj [("claim",
                    Obj [("contents", Jsonabc.sortObj contents);
                         ("cTypeHash", cTypeHash); ("owner", owner)]);
                   ("claimNonceMap", nonces); ("claimerSignature", sig);
                   ("claimHashes", hashes); ("rootHash", root);
                   ("legitimations", Arr legs'); ("delegationId", del)]).
  { unfold decompressed_form, field.
    rewrite !(get_Obj _ _ _ Hc), (get_Obj _ _ _ Hn), (get_Obj _ _ _ Hs),
      (get_Obj _ _ _ Hh), (get_Obj _ _ _ Hr), (get_Obj _ _ _ Hd).
    now rewrite (get_Obj _ _ _ Hcc), (get_Obj _ _ _ Hct), (get_Obj _ _ _ Hco). }
  eexists. exists legs'. rewrite Hform. split; [|split].
  - unfold RequestForAttestationUtils.compress. rewrite Herr.
    cbn -[compressLegitimation ClaimUtils.compress].
    rewrite Hc, Hn, Hs, Hh, Hr, Hl, Hd.
    cbn -[compressLegitimation ClaimUtils.compress].
    unfold ClaimUtils.compress. rewrite Hcerr.
    cbn -[compressLegitimation].
    rewrite Hcc, Hct, Hco. cbn -[compressLegitimation].
    rewrite Hcomp. reflexivity.
  - unfold RequestForAttestationUtils.decompress.
    cbn -[decompressLegitimation].
    unfold decompress_fields. cbn -[decompressLegitimation].
    rewrite Hdecomp. reflexivity.
  - apply equal_Obj. split; [now rewrite Hlen|].
    intros k v Hin. simpl in Hin.
    repeat destruct Hin as [[= <- <-]|Hin]; try contradiction.
    + exists (Obj cs). split; [exact Hc|].
      apply equal_Obj. split; [now rewrite Hclen|].
      intros k v Hin. simpl in Hin.
      repeat destruct Hin as [[= <- <-]|Hin]; try contradiction.
      * exists contents. split; [exact Hcc|].
        apply equal_sortObj. eapply wf_assoc; eassumption.
      * exists cTypeHash. split; [exact Hct|].
        apply equal_refl. eapply wf_assoc; eassumption.
      * exists owner. split; [exact Hco|].
        apply equal_refl. eapply wf_assoc; eassumption.
    + exists nonces. split; [exact Hn|]. now apply equal_refl.
    + exists sig. split; [exact Hs|]. now apply equal_refl.
    + exists hashes. split; [exact Hh|]. now apply equal_refl.
    + exists root. split; [exact Hr|]. now apply equal_refl.
    + exists (Arr legs). split; [exact Hl|]. exact Hleq.
    + exists del. split; [exact Hd|]. now apply equal_refl.
Qed.
End RoundTrip.

(** Bob's request, with its contents out of key order and Charlie's
    legitimation, goes through the round trip. *)
Lemma decompress_compress_witness :
  exists c legs',
    compress Examples.accept Examples.accept Examples.verified
      Examples.legitimation_compress Examples.request_bob = Ok c
    /\ decompress Examples.legitimation_decompress c
       = Ok (decompressed_form Examples.request_bob legs')
    /\ equal (decompressed_form Examples.request_bob legs')
         Examples.request_bob = true.
Proof.
  apply (decompress_compress Examples.accept Examples.accept Examples.verified
           Examples.legitimation_compress Examples.legitimation_decompress
           Examples.request_bob [Examples.legitimation_charlie]).
  - vm_compute. reflexivity.
  - reflexivity.
  - vm_compute. reflexivity.
  - constructor; [|constructor].
    eexists. eexists. split; [|split]; vm_compute; reflexivity.
Defined.

(** The short array is rejected by the arity check. *)
Lemma decompress_arity_check_witness :
  decompress Examples.no_codec Examples.compressed_short
    = Throw (ERROR_DECOMPRESSION_ARRAY "Request for Attestation").
Proof.
  apply (decompress_arity_check Examples.no_codec Examples.compressed_short).
  reflexivity.
Defined.

End RequestForAttestationUtilsFacts.

(** ** The commitment engine *)

Module EngineFacts.
Import Engine.

Lemma mapR_all_Ok {A B} (f : A -> Result B) (l : list A) :
  (forall x, In x l -> exists y, f x = Ok y) ->
  exists ys, mapR f l = Ok ys.
Proof.
  induction l as [|x l IH]; intros Hall; simpl; [eauto|].
  destruct (Hall x) as [y ->]; [now left|].
  destruct IH as [ys ->]; [intros z Hz; apply Hall; now right|]. eauto.
Qed.

Lemma mapR_Ok_all {A B} (f : A -> Result B) (l : list A) ys :
  mapR f l = Ok ys -> forall x, In x l -> exists y, f x = Ok y.
Proof.
  revert ys. induction l as [|x l IH]; intros ys Hmap z Hz; [contradiction|].
  simpl in Hmap. destruct (f x) as [y|] eqn:Hx; [|discriminate].
  destruct (mapR f l) as [ys'|] eqn:Hl; [|discriminate].
  destruct Hz as [<-|Hz]; [eauto|]. eapply IH; eauto.
Qed.


#[local] Instance PropertyUnit_inj : Inj (=) (=) PropertyUnit.
Proof. intros k k' [=]. assumption. Qed.

Section WithPrimitives.
Variable H : string -> Digest.
Variable serialize : Js.value -> string.
Variable combine : gset string -> list Digest -> option Digest -> string.
Variable sign : Digest -> SecretKey -> Signature.
Variable verify : Digest -> Signature -> Address -> bool.

Abbreviation hashNonceValue := (hashNonceValue H serialize).
Abbreviation commit := (commit H serialize).
Abbreviation verifyUnit := (verifyUnit H serialize).
Abbreviation verifyData := (verifyData H serialize combine verify).
Abbreviation buildRequest := (buildRequest H serialize combine sign).

Abbreviation units_verify := (units_verify H serialize).

(** With its units verified, the verifier answers with the consistency
    of the root hash, of the claim hashes and of the signature. *)
Lemma verifyData_units (r : RequestForAttestation) :
  units_verify r ->
  verifyData r
  = Ok (String.eqb
          (calculateRootHash H combine (claimHashes r) (legitimations r)
             (delegationId r)) (rootHash r)
        && claimHashesCovered r && verifySignature verify r).
Proof.
  intros [Hown Hprops]. unfold Engine.verifyData.
  assert (Ho : match owner (claim r) with
               | Some a => verifyUnit r OwnerUnit (Js.Str a)
               | None => Ok tt
               end = Ok tt) by (destruct (owner (claim r)); auto).
  rewrite Ho. simpl.
  destruct (mapR_all_Ok
              (fun kv => verifyUnit r (PropertyUnit (fst kv)) (snd kv))
              (map_to_list (contents (claim r)))) as [us ->].
  { intros [k v] Hin. exists tt. apply Hprops.
    now apply elem_of_map_to_list, list_elem_of_In. }
  simpl. destruct (String.eqb _ (rootHash r)); [|reflexivity].
  simpl. now destruct (claimHashesCovered r).
Qed.

(** What the verifier accepts, step by step. *)
Lemma verifyData_true_iff (r : RequestForAttestation) :
  verifyData r = Ok true <->
  units_verify r
  /\ calculateRootHash H combine (claimHashes r) (legitimations r) (delegationId r)
     = rootHash r
  /\ claimHashesCovered r = true
  /\ verifySignature verify r = true.
Proof.
  split.
  - intros Hv. assert (Hunits : units_verify r).
    { unfold Engine.verifyData in Hv.
      apply RequestForAttestationUtilsFacts.bind_Ok_inv in Hv as ([] & Hown & Hv).
      apply RequestForAttestationUtilsFacts.bind_Ok_inv in Hv as (us & Hprops & _).
      split.
      - intros a Ha. now rewrite Ha in Hown.
      - intros k v Hk.
        destruct (mapR_Ok_all _ _ _ Hprops (k, v)) as [[] Hu]; [|exact Hu].
        apply list_elem_of_In, elem_of_map_to_list, Hk. }
    split; [exact Hunits|].
    rewrite (verifyData_units r Hunits) in Hv. injection Hv as Hv.
    apply andb_true_iff in Hv as [[Hroot Hcov]%andb_true_iff Hsig].
    now apply String.eqb_eq in Hroot.
  - intros (Hunits & Hroot & Hcov & Hsig).
    rewrite (verifyData_units r Hunits), Hroot, String.eqb_refl, Hcov, Hsig.
    reflexivity.
Qed.

(** *** Collision-free hashing *)









(** *** Redaction *)

Lemma removeClaimProperties_singleton (k : PropertyName) (r : RequestForAttestation) :
  removeClaimProperties {[k]} r = removeClaimProperty k r.
Proof. unfold removeClaimProperties. now rewrite elements_singleton. Qed.

Lemma hashes_without_nonce (u : UnitKey) (m : gmap (option string) NonceEntry) :
  hash <$> alter without_nonce u m = hash <$> m.
Proof.
  apply map_eq. intros u'. rewrite !lookup_fmap.
  destruct (decide (u = u')) as [<-|Hne].
  - rewrite lookup_alter_eq. now destruct (m !! u).
  - now rewrite lookup_alter_ne.
Qed.

Lemma verifyUnit_remove_ne (k : PropertyName) (u : UnitKey) (v : Js.value)
    (r : RequestForAttestation) :
  u <> PropertyUnit k ->
  verifyUnit (removeClaimProperty k r) u v = verifyUnit r u v.
Proof.
  intros Hne. unfold Engine.verifyUnit. simpl.
  now rewrite lookup_alter_ne by congruence.
Qed.

(** Redaction keeps a verifying request verifying. *)
Lemma remove_verifies (k : PropertyName) (r : RequestForAttestation) :
  verifyData r = Ok true -> verifyData (removeClaimProperty k r) = Ok true.
Proof.
  rewrite !verifyData_true_iff. intros ([Hown Hprops] & Hroot & Hcov & Hsig).
  split; [split|split; [exact Hroot|split; [|exact Hsig]]].
  - intros a Ha. rewrite verifyUnit_remove_ne by discriminate. now apply Hown.
  - intros k' v Hk'. simpl in Hk'.
    apply lookup_delete_Some in Hk' as [Hne Hk'].
    rewrite verifyUnit_remove_ne by (unfold PropertyUnit; congruence).
    now apply Hprops.
  - unfold claimHashesCovered in *. simpl.
    now rewrite hashes_without_nonce.
Qed.

(** *** Tampering with a nonce *)


(** *** Tampering by deletion *)




(** *** The builder *)

Section Built.
Variable claim0 : Claim.
Variable claimer : Identity.
Variable salts : UnitKey -> Salt.
Variable legitimations0 : list AttestedClaim.
Variable delegationId0 : option Digest.

Abbreviation built :=
  (buildRequest claim0 claimer salts legitimations0 delegationId0).

Lemma built_owner_entry :
  claimNonceMap built !! OwnerUnit
  = Some (commit (salts OwnerUnit) (Js.Str (default "" (owner claim0)))).
Proof. simpl. apply lookup_insert_eq. Qed.

Lemma built_property_entry (k : PropertyName) :
  claimNonceMap built !! PropertyUnit k
  = commit (salts (PropertyUnit k)) <$> contents claim0 !! k.
Proof.
  simpl. rewrite lookup_insert_ne by discriminate.
  rewrite (lookup_kmap PropertyUnit), map_lookup_imap.
  now destruct (contents claim0 !! k).
Qed.

Lemma built_hash_member (u : UnitKey) (e : NonceEntry) :
  claimNonceMap built !! u = Some e -> hash e ∈ claimHashes built.
Proof.
  intros Hu.
  change (hash e ∈ (map_img (hash <$> claimNonceMap built) : gset string)).
  apply elem_of_map_img. exists u. now rewrite lookup_fmap, Hu.
Qed.

Lemma built_verifyUnit (u : UnitKey) (v : Js.value) :
  claimNonceMap built !! u = Some (commit (salts u) v) ->
  verifyUnit built u v = Ok tt.
Proof.
  intros Hu. unfold Engine.verifyUnit. rewrite Hu. simpl.
  rewrite String.eqb_refl. simpl.
  rewrite bool_decide_eq_true_2; [reflexivity|].
  apply (built_hash_member u _ Hu).
Qed.

(** A request built by the claimer over a claim the claimer owns
    verifies, provided the claimer's key pair is sound. *)
Lemma built_verifies :
  owner claim0 = Some (address claimer) ->
  (forall m, verify m (sign m (secretKey claimer)) (address claimer) = true) ->
  verifyData built = Ok true.
Proof.
  intros Hown Hkeys. apply verifyData_true_iff.
  split; [split|split; [reflexivity|split]].
  - intros a Ha. apply built_verifyUnit. rewrite built_owner_entry.
    simpl in Ha. rewrite Ha. reflexivity.
  - intros k v Hk. apply built_verifyUnit. rewrite built_property_entry.
    simpl in Hk. now rewrite Hk.
  - now apply bool_decide_eq_true_2.
  - unfold verifySignature. simpl. rewrite Hown. apply Hkeys.
Qed.




(** C2. Redacting one property [k] of a built request removes its value
    from the contents and its nonce from the nonce map, leaves the value
    and the nonce of every other property and of the owner in place,
    leaves the root hash, the claim hashes and the claimer's signature
    as they were, and the redacted request passes [verifyData]. *)
Theorem removeClaimProperties_sound (k : PropertyName) (v : Js.value) :
  owner claim0 = Some (address claimer) ->
  (forall m, verify m (sign m (secretKey claimer)) (address claimer) = true) ->
  contents claim0 !! k = Some v ->
  let r' := removeClaimProperties {[k]} built in
  contents (claim r') !! k = None
  /\ (claimNonceMap r' !! PropertyUnit k) ≫= nonce = None
  /\ (forall k' v', k' <> k -> contents claim0 !! k' = Some v' ->
        contents (claim r') !! k' = Some v'
        /\ claimNonceMap r' !! PropertyUnit k'
           = Some (commit (salts (PropertyUnit k')) v'))
  /\ owner (claim r') = owner claim0
  /\ claimNonceMap r' !! OwnerUnit = claimNonceMap built !! OwnerUnit
  /\ rootHash r' = rootHash built
  /\ claimHashes r' = claimHashes built
  /\ claimerSignature r' = claimerSignature built
  /\ verifyData r' = Ok true.
Proof.
  intros Hown Hkeys Hk r'. subst r'. rewrite removeClaimProperties_singleton.
  split; [apply lookup_delete_eq|]. split.
  { change ((alter without_nonce (PropertyUnit k) (claimNonceMap built)
               !! PropertyUnit k) ≫= nonce = None).
    rewrite lookup_alter_eq. now destruct (claimNonceMap built !! PropertyUnit k). }
  split; [|split; [reflexivity|split; [|repeat split]]].
  - intros k' v' Hne Hk'. split.
    + simpl. now rewrite lookup_delete_ne by congruence.
    + change (alter without_nonce (PropertyUnit k) (claimNonceMap built)
                !! PropertyUnit k'
              = Some (commit (salts (PropertyUnit k')) v')).
      rewrite lookup_alter_ne by (unfold PropertyUnit; congruence).
      rewrite built_property_entry. now rewrite Hk'.
  - change (alter without_nonce (PropertyUnit k) (claimNonceMap built)
              !! OwnerUnit
            = claimNonceMap built !! OwnerUnit).
    now rewrite lookup_alter_ne by discriminate.
  - apply remove_verifies. now apply built_verifies.
Qed.

End Built.

End WithPrimitives.

(** *** Bob's request over [{a: 'a', b: 'b', c: 'c'}] *)

Lemma toy_keys_sound (m : Digest) :
  EngineExamples.toy_verify m
    (EngineExamples.toy_sign m (secretKey EngineExamples.bob))
    (address EngineExamples.bob) = true.
Proof. apply String.eqb_refl. Qed.





(** Hiding [a] in Bob's request. *)
Lemma removeClaimProperties_sound_witness :
  let r' := removeClaimProperties {["a"]} EngineExamples.request_abc in
  contents (claim r') !! "a" = None
  /\ (claimNonceMap r' !! Some "a") ≫= nonce = None
  /\ contents (claim r') !! "b" = Some (Js.Str "b")
  /\ rootHash r' = rootHash EngineExamples.request_abc
  /\ Engine.verifyData EngineExamples.toy_H EngineExamples.toy_serialize
       EngineExamples.toy_combine EngineExamples.toy_verify r' = Ok true.
Proof.
  destruct (removeClaimProperties_sound EngineExamples.toy_H
              EngineExamples.toy_serialize EngineExamples.toy_combine
              EngineExamples.toy_sign EngineExamples.toy_verify
              EngineExamples.claim_abc EngineExamples.bob
              EngineExamples.salts_abc [] None "a" (Js.Str "a")
              eq_refl toy_keys_sound eq_refl)
    as (Ha & Hnonce & Hothers & _ & _ & Hroot & _ & _ & Hv).
  split; [exact Ha|]. split; [exact Hnonce|].
  split; [|split; [exact Hroot|exact Hv]].
  apply (Hothers "b" (Js.Str "b")); [discriminate|reflexivity].
Defined.

End EngineFacts.

(** ** Claim utilities *)

Module ClaimUtilsFacts.
Import Js ClaimUtils JsFacts.

Lemma get_Throw_inv (v : value) (k : string) (e : Exn) :
  get v k = Throw e -> e = TypeError /\ (v = Undefined \/ v = Null).
Proof. destruct v; simpl; intros [=]; subst; auto. Qed.

Lemma get_Ok_any (v w : value) (k k' : string) :
  get v k = Ok w -> exists w', get v k' = Ok w'.
Proof. destruct v; simpl; intros [=]; eauto. Qed.

Lemma truthy_Str (s : string) : truthy (Str s) = false <-> s = "".
Proof.
  simpl. destruct (String.eqb_spec s ""); simpl; split; congruence.
Qed.

Lemma allowed_typeof_iff (v : value) :
  allowed_typeof (typeof v) = true <-> v <> Undefined.
Proof. destruct v; simpl; split; (congruence || reflexivity || discriminate). Qed.

(** One entry of the contents passes when its key is not empty and its
    value is not [undefined]. *)
Lemma check_entry_Ok_iff (kv : string * value) :
  check_entry kv = Ok tt <-> fst kv <> "" /\ snd kv <> Undefined.
Proof.
  destruct kv as [k v]. unfold check_entry. simpl fst. simpl snd.
  change (typeof (Str k)) with "string". rewrite String.eqb_refl.
  rewrite orb_false_r.
  destruct (truthy (Str k)) eqn:Hk; simpl.
  - assert (k <> "") by (intros ->; discriminate).
    destruct (allowed_typeof (typeof v)) eqn:Hv; simpl.
    + apply allowed_typeof_iff in Hv. split; [auto|reflexivity].
    + split; [discriminate|]. intros [_ Hne].
      apply allowed_typeof_iff in Hne. congruence.
  - apply truthy_Str in Hk. split; [discriminate|]. intros [Hne _]. contradiction.
Qed.

Lemma check_entry_Throw (kv : string * value) (e : Exn) :
  check_entry kv = Throw e -> e = ERROR_CLAIM_CONTENTS_MALFORMED.
Proof.
  destruct kv as [k v]. unfold check_entry.
  destruct (_ || _ || _); [now intros [= <-]|discriminate].
Qed.

Lemma check_entries_Ok_iff (es : list (string * value)) :
  (exists us, mapR check_entry es = Ok us)
  <-> List.Forall (fun kv => fst kv <> "" /\ snd kv <> Undefined) es.
Proof.
  rewrite List.Forall_forall. split.
  - intros [us Hmap] kv Hin.
    destruct (EngineFacts.mapR_Ok_all _ _ _ Hmap kv Hin) as [[] Hkv].
    now apply check_entry_Ok_iff.
  - intros Hall. apply EngineFacts.mapR_all_Ok. intros kv Hin. exists tt.
    now apply check_entry_Ok_iff, Hall.
Qed.

Lemma check_entries_Throw (es : list (string * value)) (e : Exn) :
  mapR check_entry es = Throw e -> e = ERROR_CLAIM_CONTENTS_MALFORMED.
Proof.
  induction es as [|kv es IH]; simpl; [discriminate|].
  destruct (check_entry kv) as [u|e0] eqn:Hkv.
  - destruct (mapR check_entry es); [discriminate|]. intros [= <-]. now apply IH.
  - intros [= <-]. eapply check_entry_Throw, Hkv.
Qed.

Lemma bind_Ok_iff {A B} (m : Result A) (f : A -> Result B) (b : B) :
  m ≫= f = Ok b <-> exists a, m = Ok a /\ f a = Ok b.
Proof.
  split; [apply RequestForAttestationUtilsFacts.bind_Ok_inv|].
  now intros (a & -> & Hf).
Qed.

(** The contents stage of [errorCheck]: skipped on [undefined]. *)
Lemma contents_stage_Ok_iff (c : value) :
  (exists us,
     (if negb (is_undefined c)
      then es ← entries c; mapR check_entry es
      else Ok []) = Ok us)
  <-> (c <> Undefined ->
       exists es, entries c = Ok es
         /\ List.Forall (fun kv => fst kv <> "" /\ snd kv <> Undefined) es).
Proof.
  destruct (is_undefined c) eqn:Hu; simpl.
  - destruct c; try discriminate. split; [congruence|eauto].
  - assert (c <> Undefined) by (intros ->; discriminate). split.
    + intros [us Hus] _. apply bind_Ok_iff in Hus as (es & Hes & Hmap).
      exists es. split; [exact Hes|]. apply check_entries_Ok_iff. eauto.
    + intros Hc. destruct (Hc H) as (es & Hes & Hall).
      apply check_entries_Ok_iff in Hall as [us Hus].
      exists us. rewrite Hes. exact Hus.
Qed.

Section WithDataUtils.
Variable validateAddress : value -> string -> Result value.
Variable validateHash : value -> string -> Result value.

Abbreviation errorCheck := (errorCheck validateAddress validateHash).
Abbreviation compress := (compress validateAddress validateHash).

(** X1. [ClaimUtils.errorCheck] accepts a claim exactly when its
    cTypeHash is truthy, the address validator does not throw on a
    truthy owner, every entry of defined contents has a non-empty key and
    a value other than [undefined], and the hash validator does not
    throw on the cTypeHash.  What the validators return is not looked
    at, and [null], arrays and nested objects pass as contents values. *)
Theorem ClaimUtils_errorCheck_Ok_iff (input h o c : value) :
  get input "cTypeHash" = Ok h ->
  get input "owner" = Ok o ->
  get input "contents" = Ok c ->
  errorCheck input = Ok tt <->
    truthy h = true
    /\ (truthy o = true -> exists b, validateAddress o "Claim owner" = Ok b)
    /\ (c <> Undefined ->
        exists es, entries c = Ok es
          /\ List.Forall (fun kv => fst kv <> "" /\ snd kv <> Undefined) es)
    /\ exists b, validateHash h "Claim CType" = Ok b.
Proof.
  intros Hh Ho Hc. rewrite <- contents_stage_Ok_iff.
  unfold ClaimUtils.errorCheck. rewrite Hh. simpl.
  destruct (truthy h) eqn:Hth; simpl;
    [|split; [discriminate|intros [[=] _]]].
  rewrite Ho. simpl. rewrite bind_Ok_iff. split.
  - intros (a & Howner & Hrest). rewrite Hc in Hrest. simpl in Hrest.
    apply bind_Ok_iff in Hrest as (us & Hcont & Hrest).
    apply bind_Ok_iff in Hrest as (b & Hhash & _).
    split; [reflexivity|]. split; [|eauto].
    intros Hto. rewrite Hto in Howner. eauto.
  - intros (_ & Howner & [us Hcont] & [b Hhash]).
    destruct (truthy o) eqn:Hto.
    + destruct (Howner eq_refl) as [a Ha]. exists a. split; [exact Ha|].
      rewrite Hc. simpl. rewrite Hcont. simpl. now rewrite Hhash.
    + exists Undefined. split; [reflexivity|].
      rewrite Hc. simpl. rewrite Hcont. simpl. now rewrite Hhash.
Qed.

(** Past [errorCheck], [compress] reads the three fields and returns. *)
Lemma ClaimUtils_compress_of_errorCheck (claim : value) :
  errorCheck claim = Ok tt ->
  exists contents h o,
    get claim "contents" = Ok contents
    /\ get claim "cTypeHash" = Ok h
    /\ get claim "owner" = Ok o
    /\ truthy h = true
    /\ compress claim = Ok (Arr [Jsonabc.sortObj contents; h; o]).
Proof.
  intros Herr. pose proof Herr as Herr'.
  unfold ClaimUtils.errorCheck in Herr'.
  apply bind_Ok_iff in Herr' as (h & Hh & Hrest).
  destruct (get_Ok_any _ _ _ "contents" Hh) as [contents Hc].
  destruct (get_Ok_any _ _ _ "owner" Hh) as [o Ho].
  exists contents, h, o. repeat (split; [assumption|]).
  split; [now destruct (truthy h)|].
  unfold ClaimUtils.compress. rewrite Herr. simpl.
  now rewrite Hc, Hh, Ho.
Qed.

Lemma ClaimUtils_compress_Ok_inv (claim c : value) :
  compress claim = Ok c ->
  errorCheck claim = Ok tt
  /\ exists contents h o,
       get claim "contents" = Ok contents
       /\ get claim "cTypeHash" = Ok h
       /\ get claim "owner" = Ok o
       /\ truthy h = true
       /\ c = Arr [Jsonabc.sortObj contents; h; o].
Proof.
  intros Hc. destruct (errorCheck claim) as [[]|e'] eqn:Herr.
  - split; [reflexivity|].
    destruct (ClaimUtils_compress_of_errorCheck claim Herr)
      as (contents & h & o & H1 & H2 & H3 & H4 & H5).
    exists contents, h, o. repeat (split; [assumption|]). congruence.
  - unfold ClaimUtils.compress in Hc. rewrite Herr in Hc. discriminate.
Qed.

(** X2. [ClaimUtils.compress] fails exactly when [errorCheck] fails,
    and with the same error; when it returns, it returns the array of
    the sorted contents, the cTypeHash and the owner of a claim whose
    cTypeHash is truthy. *)
Theorem ClaimUtils_compress_errorCheck (claim : value) :
  (forall e, compress claim = Throw e <-> errorCheck claim = Throw e)
  /\ (forall c, compress claim = Ok c ->
        errorCheck claim = Ok tt
        /\ exists contents h o,
             get claim "contents" = Ok contents
             /\ get claim "cTypeHash" = Ok h
             /\ get claim "owner" = Ok o
             /\ truthy h = true
             /\ c = Arr [Jsonabc.sortObj contents; h; o]).
Proof.
  split; [|apply ClaimUtils_compress_Ok_inv].
  intros e. unfold ClaimUtils.compress at 1.
  destruct (errorCheck claim) as [[]|e'] eqn:Herr; simpl.
  - destruct (ClaimUtils_compress_of_errorCheck claim Herr)
      as (contents & h & o & Hc & Hh & Ho & _ & _).
    rewrite Hc, Hh, Ho. simpl. split; discriminate.
  - split; intros [= ->]; reflexivity.
Qed.

(** A compressed claim is an array of length 3 with a truthy cTypeHash. *)
Lemma ClaimUtils_compress_shape (claim c : value) :
  compress claim = Ok c ->
  exists contents h o, c = Arr [contents; h; o] /\ truthy h = true.
Proof.
  intros Hc. apply ClaimUtils_compress_Ok_inv in Hc
    as (_ & contents & h & o & _ & _ & _ & Hh & ->). eauto.
Qed.

End WithDataUtils.

(** X3. [ClaimUtils.decompress] returns exactly on arrays of length 3,
    and throws ERROR_DECOMPRESSION_ARRAY('Claim') on everything else; it
    validates nothing, so an array whose cTypeHash slot is falsy is
    decompressed into a claim that [errorCheck] then rejects. *)
Theorem ClaimUtils_decompress_exact (x : value) :
  (decompress x = Throw (ERROR_DECOMPRESSION_ARRAY "Claim")
     <-> ~ exists a b c, x = Arr [a; b; c])
  /\ (forall a b c, x = Arr [a; b; c] ->
        decompress x
        = Ok (Obj [("contents", a); ("cTypeHash", b); ("owner", c)]))
  /\ (forall validateAddress validateHash a b c claim,
        x = Arr [a; b; c] -> truthy b = false ->
        decompress x = Ok claim ->
        ClaimUtils.errorCheck validateAddress validateHash claim
        = Throw ERROR_CTYPE_HASH_NOT_PROVIDED).
Proof.
  split; [|split].
  - destruct x as [| | | | |elems|]; simpl;
      try (split; [intros _ (? & ? & ? & [=])|reflexivity]).
    destruct elems as [|a [|b [|c [|d elems]]]]; simpl;
      try (split; [intros _ (? & ? & ? & [=])|reflexivity]).
    split; [discriminate|]. intros Hno. exfalso. apply Hno. eauto.
  - intros a b c ->. reflexivity.
  - intros vA vH a b c claim -> Hb [= <-].
    unfold ClaimUtils.errorCheck. simpl. unfold index. simpl. now rewrite Hb.
Qed.

(** The shape of an [IClaim]: an object with exactly the three fields,
    every object in it with distinct keys. *)
Lemma claim_shape (claim : value) :
  wf claim = true -> has_keys RequestForAttestationUtils.claim_keys claim = true ->
  exists ps contents h o,
    claim = Obj ps /\ length ps = 3%nat
    /\ assoc "contents" ps = Some contents
    /\ assoc "cTypeHash" ps = Some h
    /\ assoc "owner" ps = Some o
    /\ wf contents = true /\ wf h = true /\ wf o = true.
Proof.
  intros Hwf Hkeys.
  apply RequestForAttestationUtilsFacts.has_keys_Obj in Hkeys
    as (ps & -> & Hlen & Hks).
  destruct (Hks "contents") as (contents & Hc); [simpl; tauto|].
  destruct (Hks "cTypeHash") as (h & Hh); [simpl; tauto|].
  destruct (Hks "owner") as (o & Ho); [simpl; tauto|].
  exists ps, contents, h, o. repeat (split; [assumption || reflexivity|]).
  repeat split; eapply wf_assoc; eassumption.
Qed.

(** X4. A claim with exactly the fields contents, cTypeHash and owner
    that passes [errorCheck] survives compression: [decompress] of
    [compress] returns a claim with the same cTypeHash and owner and with
    the contents sorted by key, equal to the original as an object. *)
Theorem ClaimUtils_decompress_compress
    (validateAddress validateHash : value -> string -> Result value)
    (claim : value) :
  wf claim = true ->
  has_keys RequestForAttestationUtils.claim_keys claim = true ->
  ClaimUtils.errorCheck validateAddress validateHash claim = Ok tt ->
  exists c claim',
    ClaimUtils.compress validateAddress validateHash claim = Ok c
    /\ decompress c = Ok claim'
    /\ get claim' "cTypeHash" = get claim "cTypeHash"
    /\ get claim' "owner" = get claim "owner"
    /\ get claim' "contents" = Jsonabc.sortObj <$> get claim "contents"
    /\ equal claim' claim = true.
Proof.
  intros Hwf Hkeys Herr.
  destruct (claim_shape claim Hwf Hkeys)
    as (ps & contents & h & o & -> & Hlen & Hc & Hh & Ho & Hwc & Hwh & Hwo).
  eexists. eexists. split; [|split].
  - unfold ClaimUtils.compress. rewrite Herr. simpl. rewrite Hc, Hh, Ho.
    reflexivity.
  - reflexivity.
  - split; [simpl; now rewrite Hh|]. split; [simpl; now rewrite Ho|].
    split; [simpl; now rewrite Hc|].
    apply equal_Obj. split; [now rewrite Hlen|].
    intros k v Hin. simpl in Hin.
    repeat destruct Hin as [[= <- <-]|Hin]; try contradiction.
    + exists contents. split; [exact Hc|]. now apply equal_sortObj.
    + exists h. split; [exact Hh|]. now apply equal_refl.
    + exists o. split; [exact Ho|]. now apply equal_refl.
Qed.

(** The claim of Bob's request through [errorCheck] and the round trip. *)
Lemma ClaimUtils_errorCheck_Ok_iff_witness :
  ClaimUtils.errorCheck Examples.accept Examples.accept
    (Examples.claim_of Examples.contents_bca "bob") = Ok tt.
Proof.
  apply (ClaimUtils_errorCheck_Ok_iff Examples.accept Examples.accept
           (Examples.claim_of Examples.contents_bca "bob")
           (Str "0xctype") (Str "bob") Examples.contents_bca
           eq_refl eq_refl eq_refl).
  split; [reflexivity|]. split; [intros _; eexists; reflexivity|].
  split; [|eexists; reflexivity].
  intros _. eexists. split; [reflexivity|].
  repeat constructor; discriminate.
Defined.

Lemma ClaimUtils_decompress_compress_witness :
  exists c claim',
    ClaimUtils.compress Examples.accept Examples.accept
      (Examples.claim_of Examples.contents_bca "bob") = Ok c
    /\ decompress c = Ok claim'
    /\ equal claim' (Examples.claim_of Examples.contents_bca "bob") = true.
Proof.
  destruct (ClaimUtils_decompress_compress Examples.accept Examples.accept
              (Examples.claim_of Examples.contents_bca "bob")
              eq_refl eq_refl eq_refl)
    as (c & claim' & Hc & Hd & _ & _ & _ & Heq).
  exists c, claim'. auto.
Defined.

End ClaimUtilsFacts.

(** ** The guards of [errorCheck], one after the other *)

Module RequestForAttestationUtilsGuards.
Import Js JsMore RequestForAttestationUtils JsFacts.

Lemma mapR_app_Throw {A B} (f : A -> Result B) (pre post : list A) (x : A)
    (e : Exn) :
  (forall y, In y pre -> exists z, f y = Ok z) ->
  f x = Throw e ->
  mapR f (pre ++ x :: post) = Throw e.
Proof.
  intros Hpre Hx. induction pre as [|y pre IH]; simpl.
  - now rewrite Hx.
  - destruct (Hpre y) as [z ->]; [now left|].
    rewrite IH; [reflexivity|]. intros y' Hy'. apply Hpre. now right.
Qed.

Lemma mapR_Ok_iff {A B} (f : A -> Result B) (l : list A) (l' : list B) :
  mapR f l = Ok l' <-> List.Forall2 (fun x y => f x = Ok y) l l'.
Proof.
  revert l'. induction l as [|x l IH]; intros l'; simpl.
  - split; [intros [= <-]; constructor|inversion 1; reflexivity].
  - split.
    + destruct (f x) as [y|] eqn:Hx; [|discriminate].
      destruct (mapR f l) as [ys|] eqn:Hl; [|discriminate].
      intros [= <-]. constructor; [exact Hx|]. now apply IH.
    + inversion 1 as [|? y ? ys Hx Hrest]; subst. rewrite Hx.
      apply IH in Hrest. now rewrite Hrest.
Qed.

Section WithCollaborators.
Variable validateAddress : value -> string -> Result value.
Variable validateHash : value -> string -> Result value.
Variable verifyData : value -> Result value.
Variable AttestedClaimUtils_compress : value -> Result value.
Variable AttestedClaimUtils_decompress : value -> Result value.

Abbreviation check_claim := (check_claim validateAddress validateHash).
Abbreviation check_claimNonceMap := (check_claimNonceMap validateHash).
Abbreviation errorCheck := (errorCheck validateAddress validateHash verifyData).
Abbreviation compress :=
  (compress validateAddress validateHash verifyData
     AttestedClaimUtils_compress).
Abbreviation decompress := (decompress AttestedClaimUtils_decompress).

Lemma compress_Throw_of_errorCheck (r : value) (e : Exn) :
  errorCheck r = Throw e -> compress r = Throw e.
Proof.
  intros Herr. unfold RequestForAttestationUtils.compress. now rewrite Herr.
Qed.

(** X5. [errorCheck], and [compress] with it, reports a missing field
    with the error of the first guard that fails, in the order claim,
    legitimations, claimNonceMap: a falsy claim gives
    ERROR_CLAIM_NOT_PROVIDED whatever the rest of the input; with the
    claim accepted, falsy legitimations give
    ERROR_LEGITIMATIONS_NOT_PROVIDED; with both accepted, a falsy nonce
    map gives ERROR_CLAIM_NONCE_MAP_NOT_PROVIDED and a truthy nonce map
    that is not an object ERROR_CLAIM_NONCE_MAP_MALFORMED. *)
Theorem errorCheck_missing_fields (input : value) :
  (forall claim,
     get input "claim" = Ok claim -> truthy claim = false ->
     errorCheck input = Throw ERROR_CLAIM_NOT_PROVIDED
     /\ compress input = Throw ERROR_CLAIM_NOT_PROVIDED)
  /\ (forall legitimations,
        check_claim input = Ok tt ->
        get input "legitimations" = Ok legitimations ->
        truthy legitimations = false ->
        errorCheck input = Throw ERROR_LEGITIMATIONS_NOT_PROVIDED
        /\ compress input = Throw ERROR_LEGITIMATIONS_NOT_PROVIDED)
  /\ (forall legitimations claimNonceMap,
        check_claim input = Ok tt ->
        get input "legitimations" = Ok legitimations ->
        truthy legitimations = true ->
        get input "claimNonceMap" = Ok claimNonceMap ->
        (truthy claimNonceMap = false ->
         errorCheck input = Throw ERROR_CLAIM_NONCE_MAP_NOT_PROVIDED
         /\ compress input = Throw ERROR_CLAIM_NONCE_MAP_NOT_PROVIDED)
        /\ (truthy claimNonceMap = true ->
            typeof claimNonceMap <> "object" ->
            errorCheck input = Throw ERROR_CLAIM_NONCE_MAP_MALFORMED
            /\ compress input = Throw ERROR_CLAIM_NONCE_MAP_MALFORMED)).
Proof.
  assert (Hboth : forall e, errorCheck input = Throw e ->
            errorCheck input = Throw e /\ compress input = Throw e)
    by (intros e He; split; [exact He|now apply compress_Throw_of_errorCheck]).
  split; [|split].
  - intros claim Hc Ht. apply Hboth.
    unfold RequestForAttestationUtils.errorCheck,
      RequestForAttestationUtils.check_claim.
    rewrite Hc. simpl. now rewrite Ht.
  - intros leg Hclaim Hl Ht. apply Hboth.
    unfold RequestForAttestationUtils.errorCheck. rewrite Hclaim. simpl.
    unfold check_legitimations. rewrite Hl. simpl. rewrite Ht. simpl.
    now destruct leg.
  - intros leg m Hclaim Hl Ht Hm.
    assert (Hleg : check_legitimations input = Ok tt)
      by (unfold check_legitimations; rewrite Hl; simpl; now rewrite Ht).
    split.
    + intros Hf. apply Hboth.
      unfold RequestForAttestationUtils.errorCheck.
      rewrite Hclaim. simpl. rewrite Hleg. simpl.
      unfold RequestForAttestationUtils.check_claimNonceMap.
      rewrite Hm. simpl. now rewrite Hf.
    + intros Htm Hty. apply Hboth.
      unfold RequestForAttestationUtils.errorCheck.
      rewrite Hclaim. simpl. rewrite Hleg. simpl.
      unfold RequestForAttestationUtils.check_claimNonceMap.
      rewrite Hm. simpl. rewrite Htm. simpl.
      apply String.eqb_neq in Hty. now rewrite Hty.
Qed.

(** An entry of the nonce map is malformed when its digest is empty or
    refused by the validator, or its nonce is not a non-empty string. *)
Lemma entry_malformed_valid (valid : string -> bool) (kv : string * value) :
  validateHash (Str (fst kv)) "statement digest" = Ok (Bool (valid (fst kv))) ->
  entry_malformed validateHash kv
  = Ok (String.eqb (fst kv) "" || negb (valid (fst kv))
        || negb (is_nonempty_string (snd kv))).
Proof.
  destruct kv as [d n]. simpl. intros Hv.
  destruct (String.eqb d ""); simpl; [reflexivity|].
  rewrite Hv. simpl. destruct (valid d); simpl; [|reflexivity].
  destruct n; reflexivity.
Qed.

(** X6. With a hash validator that answers with a boolean, the nonce-map
    guard accepts an object exactly when every entry has a non-empty
    digest that the validator accepts and a nonce that is a non-empty
    string; otherwise it throws ERROR_CLAIM_NONCE_MAP_MALFORMED.  Here
    the answer of the validator counts, a [false] is a refusal. *)
Theorem check_claimNonceMap_entries (valid : string -> bool) (input : value)
    (es : list (string * value)) :
  (forall kv, In kv es ->
     validateHash (Str (fst kv)) "statement digest"
     = Ok (Bool (valid (fst kv)))) ->
  get input "claimNonceMap" = Ok (Obj es) ->
  check_claimNonceMap input
  = if forallb (fun kv => negb (String.eqb (fst kv) "") && valid (fst kv)
                          && is_nonempty_string (snd kv)) es
    then Ok tt
    else Throw ERROR_CLAIM_NONCE_MAP_MALFORMED.
Proof.
  intros Hvalid Hm. unfold RequestForAttestationUtils.check_claimNonceMap.
  rewrite Hm. simpl.
  assert (Hsome : some_malformed validateHash es
            = Ok (negb (forallb (fun kv =>
                                   negb (String.eqb (fst kv) "")
                                   && valid (fst kv)
                                   && is_nonempty_string (snd kv)) es))).
  { clear Hm. induction es as [|kv es IH]; [reflexivity|].
    cbn [some_malformed forallb].
    rewrite (entry_malformed_valid valid kv) by (apply Hvalid; now left).
    simpl.
    destruct (String.eqb (fst kv) ""); simpl; [reflexivity|].
    destruct (valid (fst kv)); simpl; [|reflexivity].
    destruct (is_nonempty_string (snd kv)); simpl; [|reflexivity].
    apply IH. intros kv' Hin. apply Hvalid. now right. }
  rewrite Hsome. simpl. now destruct (forallb _ es).
Qed.

(** X7. [compressLegitimation] and [decompressLegitimation] return
    exactly on an array all of whose elements the codec of attested
    claims takes, and then return the array of the results, as long as
    the input and in its order; the first element that fails fails the
    whole call with its error, and a value that is not an array is a
    [TypeError]. *)
Theorem legitimation_codec_elementwise (leg out : value) :
  (compressLegitimation AttestedClaimUtils_compress leg = Ok out
   <-> exists l l', leg = Arr l /\ out = Arr l'
         /\ List.Forall2 (fun x y => AttestedClaimUtils_compress x = Ok y) l l')
  /\ (decompressLegitimation AttestedClaimUtils_decompress leg = Ok out
      <-> exists l l', leg = Arr l /\ out = Arr l'
            /\ List.Forall2 (fun x y => AttestedClaimUtils_decompress x = Ok y)
                 l l')
  /\ (forall pre x post e,
        leg = Arr (pre ++ x :: post) ->
        (forall y, In y pre -> exists z, AttestedClaimUtils_compress y = Ok z) ->
        AttestedClaimUtils_compress x = Throw e ->
        compressLegitimation AttestedClaimUtils_compress leg = Throw e)
  /\ (isArray leg = false ->
      compressLegitimation AttestedClaimUtils_compress leg = Throw TypeError
      /\ decompressLegitimation AttestedClaimUtils_decompress leg
         = Throw TypeError).
Proof.
  assert (Hmap : forall f, array_map f leg = Ok out
            <-> exists l l', leg = Arr l /\ out = Arr l'
                  /\ List.Forall2 (fun x y => f x = Ok y) l l').
  { intros f. unfold array_map. split.
    - destruct leg as [| | | | |l|]; try discriminate.
      destruct (mapR f l) as [l'|] eqn:Hl; [|discriminate].
      intros [= <-]. exists l, l'. repeat split. now apply mapR_Ok_iff.
    - intros (l & l' & -> & -> & Hall). apply mapR_Ok_iff in Hall.
      now rewrite Hall. }
  split; [apply Hmap|]. split; [apply Hmap|]. split.
  - intros pre x post e -> Hpre Hx.
    unfold compressLegitimation, array_map.
    now rewrite (mapR_app_Throw _ pre post x e Hpre Hx).
  - intros Harr. destruct leg; try discriminate; split; reflexivity.
Qed.

(** X8. What [compress] returns is an array of the seven fields that has
    passed [errorCheck], [verifyData] included; its claim slot is an array
    of length 3 with a truthy cTypeHash and its legitimations slot an
    array.  [decompress] therefore passes its own arity check and that
    of the claim on it, and can fail only inside the decoder of the
    legitimations. *)
Theorem compress_output (r c : value) :
  compress r = Ok c ->
  errorCheck r = Ok tt
  /\ (exists b, verifyData r = Ok b)
  /\ exists contents h o m s hs root cls d,
       c = Arr [Arr [contents; h; o]; m; s; hs; root; Arr cls; d]
       /\ truthy h = true
       /\ bad_arity c = false
       /\ forall e, decompress c = Throw e ->
            mapR AttestedClaimUtils_decompress cls = Throw e.
Proof.
  intros Hc. unfold RequestForAttestationUtils.compress in Hc.
  apply ClaimUtilsFacts.bind_Ok_iff in Hc as ([] & Herr & Hc).
  split; [exact Herr|]. split.
  { unfold RequestForAttestationUtils.errorCheck in Herr.
    do 4 (apply ClaimUtilsFacts.bind_Ok_iff in Herr as (? & _ & Herr)).
    apply ClaimUtilsFacts.bind_Ok_iff in Herr as (b & Hb & _). eauto. }
  apply ClaimUtilsFacts.bind_Ok_iff in Hc as (claim & _ & Hc).
  apply ClaimUtilsFacts.bind_Ok_iff in Hc as (claim' & Hclaim & Hc).
  apply ClaimUtilsFacts.bind_Ok_iff in Hc as (m & _ & Hc).
  apply ClaimUtilsFacts.bind_Ok_iff in Hc as (s & _ & Hc).
  apply ClaimUtilsFacts.bind_Ok_iff in Hc as (hs & _ & Hc).
  apply ClaimUtilsFacts.bind_Ok_iff in Hc as (root & _ & Hc).
  apply ClaimUtilsFacts.bind_Ok_iff in Hc as (leg & _ & Hc).
  apply ClaimUtilsFacts.bind_Ok_iff in Hc as (leg' & Hleg & Hc).
  apply ClaimUtilsFacts.bind_Ok_iff in Hc as (d & _ & Hc).
  injection Hc as <-.
  apply (ClaimUtilsFacts.ClaimUtils_compress_shape validateAddress validateHash)
    in Hclaim as (contents & h & o & -> & Hh).
  unfold compressLegitimation, array_map in Hleg.
  destruct leg as [| | | | |l|]; try discriminate.
  destruct (mapR AttestedClaimUtils_compress l) as [cls|]; [|discriminate].
  injection Hleg as <-.
  exists contents, h, o, m, s, hs, root, cls, d.
  split; [reflexivity|]. split; [exact Hh|]. split; [reflexivity|].
  intros e. unfold RequestForAttestationUtils.decompress. simpl.
  unfold decompress_fields. simpl. unfold decompressLegitimation, array_map.
  unfold index. simpl.
  destruct (mapR AttestedClaimUtils_decompress cls); simpl; congruence.
Qed.

(** X9. Compression undoes decompression: a compressed request that
    [decompress] takes, whose decompressed form passes [errorCheck] and
    whose legitimations the codec encodes back as they were, is
    compressed back to itself with the contents of the claim sorted by
    key; to itself exactly when they were sorted already. *)
Theorem compress_decompress (contents h o m s hs root d r : value)
    (cls : list value) :
  decompress (Arr [Arr [contents; h; o]; m; s; hs; root; Arr cls; d]) = Ok r ->
  errorCheck r = Ok tt ->
  List.Forall (fun cl => exists l, AttestedClaimUtils_decompress cl = Ok l
                           /\ AttestedClaimUtils_compress l = Ok cl) cls ->
  compress r
  = Ok (Arr [Arr [Jsonabc.sortObj contents; h; o]; m; s; hs; root; Arr cls; d]).
Proof.
  intros Hd Herr Hall.
  unfold RequestForAttestationUtils.decompress in Hd. simpl in Hd.
  unfold decompress_fields in Hd. simpl in Hd.
  unfold decompressLegitimation, array_map, index in Hd. simpl in Hd.
  destruct (mapR AttestedClaimUtils_decompress cls) as [legs|] eqn:Hlegs;
    [|discriminate].
  simpl in Hd. injection Hd as <-.
  assert (Hback : mapR AttestedClaimUtils_compress legs = Ok cls).
  { apply mapR_Ok_iff. apply mapR_Ok_iff in Hlegs.
    clear Herr. induction Hlegs as [|cl l cls' legs' Hcl _ IH].
    - constructor.
    - inversion Hall as [|? ? (l0 & Hl0 & Hc0) Hrest]; subst.
      constructor; [congruence|]. now apply IH. }
  assert (Hcerr : ClaimUtils.errorCheck validateAddress validateHash
                     (Obj [("contents", contents); ("cTypeHash", h);
                           ("owner", o)]) = Ok tt).
  { eapply RequestForAttestationUtilsFacts.errorCheck_claim; [|exact Herr].
    reflexivity. }
  unfold RequestForAttestationUtils.compress. rewrite Herr. simpl.
  unfold ClaimUtils.compress. rewrite Hcerr. simpl.
  now rewrite Hback.
Qed.

End WithCollaborators.

End RequestForAttestationUtilsGuards.

(** ** Sorted objects, property by property *)

Module JsMoreFacts.
Import Js JsMore Jsonabc JsFacts.

Lemma assoc_None_iff (k : string) (ps : list (string * value)) :
  assoc k ps = None <-> ~ In k (map fst ps).
Proof.
  induction ps as [|[k' v] ps IH]; simpl; [tauto|].
  destruct (String.eqb_spec k k') as [->|Hne].
  - split; [discriminate|]. intros Hno. exfalso. apply Hno. now left.
  - rewrite IH. split; [intros Hno [Heq|Hin]; [congruence|auto]|auto].
Qed.

Lemma assoc_Permutation (k : string) (ps qs : list (string * value)) :
  NoDup (map fst ps) -> Permutation ps qs -> assoc k ps = assoc k qs.
Proof.
  intros Hnd Hperm.
  assert (Hnd' : NoDup (map fst qs)).
  { rewrite <- (Permutation_map fst Hperm). exact Hnd. }
  destruct (assoc k ps) as [v|] eqn:Hps.
  - symmetry. apply assoc_NoDup; [exact Hnd'|].
    eapply Permutation_in; [exact Hperm|]. now apply assoc_Some_In.
  - symmetry. apply assoc_None_iff. apply assoc_None_iff in Hps.
    intros Hin. apply Hps.
    eapply Permutation_in; [|exact Hin].
    apply Permutation_map. now symmetry.
Qed.

Lemma assoc_map_sortObj (k : string) (ps : list (string * value)) :
  assoc k (map (fun kv => (fst kv, sortObj (snd kv))) ps)
  = sortObj <$> assoc k ps.
Proof.
  induction ps as [|[k' v] ps IH]; simpl; [reflexivity|].
  now destruct (String.eqb k k').
Qed.

(** A property of a sorted object is the sorted property of the
    object. *)
Lemma get_sortObj (ps : list (string * value)) (k : string) :
  NoDup (map fst ps) ->
  get (sortObj (Obj ps)) k = sortObj <$> get (Obj ps) k.
Proof.
  intros Hnd. cbn [sortObj get].
  rewrite <- (assoc_Permutation k
                (map (fun kv => (fst kv, sortObj (snd kv))) ps)
                (sort_by_key (map (fun kv => (fst kv, sortObj (snd kv))) ps))).
  - rewrite assoc_map_sortObj. now destruct (assoc k ps).
  - now rewrite map_map.
  - symmetry. apply sort_by_key_Permutation.
Qed.

End JsMoreFacts.

(** ** CType utilities *)

Module CTypeUtilsFacts.
Import Js JsMore JsFacts JsMoreFacts CTypeUtils.

Lemma bindO_Return_iff {E A B} (m : Outcome E A) (f : A -> Outcome E B) (b : B) :
  m ≫= f = Return b <-> exists a, m = Return a /\ f a = Return b.
Proof.
  destruct m as [a|e]; simpl; split.
  - eauto.
  - now intros (a' & [= <-] & Hf).
  - discriminate.
  - intros (a' & [=] & _).
Qed.

Lemma lift_Return_iff {A} (m : Result A) (a : A) :
  lift m = Return a <-> m = Ok a.
Proof. destruct m; simpl; split; congruence. Qed.

(** X10. [decompress] of a CType returns exactly on an array of length
    3 whose schema slot is an array of length 5 (the documentation says
    4), and then returns the object of the fields by position.  Any
    other argument is an ERROR_DECOMPRESSION_ARRAY, of type 'CType' when
    the argument is not an array of length 3 and of type 'cTypeSchema'
    when its schema slot is not an array of length 5. *)
Theorem CType_decompress_exact (x : value) :
  (forall o, decompress x = Return o <->
     exists hash owner id schema title properties type,
       x = Arr [hash; owner; Arr [id; schema; title; properties; type]]
       /\ o = Obj [("hash", hash); ("owner", owner);
                   ("schema",
                    Obj [("$id", id); ("$schema", schema); ("title", title);
                         ("properties", properties); ("type", type)])])
  /\ (decompress x = Raise (Common (ERROR_DECOMPRESSION_ARRAY "CType"))
      <-> ~ exists a b c, x = Arr [a; b; c])
  /\ (decompress x = Raise (Common (ERROR_DECOMPRESSION_ARRAY "cTypeSchema"))
      <-> exists a b c, x = Arr [a; b; c]
            /\ ~ exists id schema title properties type,
                   c = Arr [id; schema; title; properties; type])
  /\ (forall e, decompress x = Raise e ->
        e = Common (ERROR_DECOMPRESSION_ARRAY "CType")
        \/ e = Common (ERROR_DECOMPRESSION_ARRAY "cTypeSchema")).
Proof.
  destruct x as [| | | | |elems|];
    try (split; [|split; [|split]];
         [ intros o; split; [discriminate|intros (?&?&?&?&?&?&?&[=]&_)]
         | split; [intros _ (?&?&?&[=])|reflexivity]
         | split; [discriminate|intros (?&?&?&[=]&_)]
         | intros e [= <-]; now left ]).
  destruct elems as [|a [|b [|c [|d elems]]]];
    try (split; [|split; [|split]];
         [ intros o; split; [discriminate|intros (?&?&?&?&?&?&?&[=]&_)]
         | split; [intros _ (?&?&?&[=])|reflexivity]
         | split; [discriminate|intros (?&?&?&[=]&_)]
         | intros e [= <-]; now left ]).
  assert (Hc : (exists id schema title properties type,
                  c = Arr [id; schema; title; properties; type]
                  /\ decompress (Arr [a; b; c])
                     = Return (Obj [("hash", a); ("owner", b);
                                    ("schema",
                                     Obj [("$id", id); ("$schema", schema);
                                          ("title", title);
                                          ("properties", properties);
                                          ("type", type)])]))
               \/ ((~ exists id schema title properties type,
                      c = Arr [id; schema; title; properties; type])
                   /\ decompress (Arr [a; b; c])
                      = Raise (Common (ERROR_DECOMPRESSION_ARRAY "cTypeSchema")))).
  { destruct c as [| | | | |cs|];
      try (right; split; [intros (?&?&?&?&?&[=])|reflexivity]).
    destruct cs as [|c0 [|c1 [|c2 [|c3 [|c4 [|c5 cs]]]]]];
      try (right; split; [intros (?&?&?&?&?&[=])|reflexivity]).
    left. exists c0, c1, c2, c3, c4. split; reflexivity. }
  split; [|split; [|split]].
  - intros o. split.
    + intros Ho. destruct Hc as [(id & sc & t & p & ty & -> & Hd)|[_ Hd]];
        rewrite Hd in Ho; [|discriminate].
      injection Ho as <-. exists a, b, id, sc, t, p, ty. split; reflexivity.
    + intros (h & ow & id & sc & t & p & ty & [= -> -> ->] & ->). reflexivity.
  - split.
    + intros Hd. destruct Hc as [(id & sc & t & p & ty & -> & Hd')|[_ Hd']];
        rewrite Hd' in Hd; discriminate.
    + intros Hno. exfalso. apply Hno. eauto.
  - split.
    + intros Hd. exists a, b, c. split; [reflexivity|].
      destruct Hc as [(id & sc & t & p & ty & -> & Hd')|[Hno _]];
        [rewrite Hd' in Hd; discriminate|exact Hno].
    + intros (a' & b' & c' & [= <- <- <-] & Hno).
      destruct Hc as [(id & sc & t & p & ty & -> & _)|[_ Hd']]; [|exact Hd'].
      exfalso. apply Hno. eauto 10.
  - intros e He. destruct Hc as [(id & sc & t & p & ty & -> & Hd')|[_ Hd']];
      rewrite Hd' in He; [discriminate|]. injection He as <-. now right.
Qed.

Lemma five_truthy_Obj (ps : list (string * value)) :
  five_truthy (Obj ps)
  = truthy (default Undefined (assoc "$id" ps))
    && truthy (default Undefined (assoc "$schema" ps))
    && truthy (default Undefined (assoc "title" ps))
    && truthy (default Undefined (assoc "properties" ps))
    && truthy (default Undefined (assoc "type" ps)).
Proof.
  unfold five_truthy, RequestForAttestationUtils.field.
  cbn [forallb schema_keys get].
  now rewrite andb_true_r, !andb_assoc.
Qed.

Lemma compressSchema_Obj (ps : list (string * value)) :
  NoDup (map fst ps) ->
  compressSchema (Obj ps)
  = if five_truthy (Obj ps)
    then Return (Arr (map (fun k => Jsonabc.sortObj
                                      (RequestForAttestationUtils.field (Obj ps) k))
                        schema_keys))
    else Raise (ERROR_COMPRESS_OBJECT (Obj ps) "cTypeSchema").
Proof.
  intros Hnd. rewrite five_truthy_Obj. unfold compressSchema.
  rewrite !(get_sortObj ps) by assumption.
  cbn [get lift mbind Outcome_bind fmap].
  destruct (truthy (default Undefined (assoc "$id" ps)));
    destruct (truthy (default Undefined (assoc "$schema" ps)));
    destruct (truthy (default Undefined (assoc "title" ps)));
    destruct (truthy (default Undefined (assoc "properties" ps)));
    destruct (truthy (default Undefined (assoc "type" ps)));
    reflexivity.
Qed.

(** X11. [compressSchema] on any value: a TypeError on [undefined] and
    [null]; ERROR_COMPRESS_OBJECT carrying the argument when one of
    $id, $schema, title, properties, type is falsy, so on every string,
    number, boolean and array; otherwise the array of these five fields
    in this order, each with its keys sorted. *)
Theorem compressSchema_exact (s : value) :
  wf s = true ->
  compressSchema s
  = if is_null s || is_undefined s then Raise (Common TypeError)
    else if five_truthy s
    then Return (Arr (map (fun k => Jsonabc.sortObj
                                      (RequestForAttestationUtils.field s k))
                        schema_keys))
    else Raise (ERROR_COMPRESS_OBJECT s "cTypeSchema").
Proof.
  intros Hwf. destruct s as [| | | | | |ps]; try reflexivity.
  apply wf_Obj in Hwf as [Hnd _]. now apply compressSchema_Obj.
Qed.

Lemma wf_field (s : value) (k : string) :
  wf s = true -> wf (RequestForAttestationUtils.field s k) = true.
Proof.
  intros Hwf. destruct s as [| | | | | |ps]; try reflexivity.
  unfold RequestForAttestationUtils.field. simpl.
  destruct (assoc k ps) as [v|] eqn:Hk; [|reflexivity].
  simpl. eapply wf_assoc; eassumption.
Qed.

Lemma sorted_schema_equal (s : value) :
  wf s = true -> has_keys schema_keys s = true ->
  equal (sorted_schema s) s = true.
Proof.
  intros Hwf Hkeys.
  apply RequestForAttestationUtilsFacts.has_keys_Obj in Hkeys
    as (ps & -> & Hlen & Hks).
  unfold sorted_schema. apply equal_Obj. split.
  - rewrite length_map. now rewrite Hlen.
  - intros k v Hin. simpl in Hin.
    repeat destruct Hin as [[= <- <-]|Hin]; try contradiction;
      (match goal with |- context [assoc ?k ps] =>
         destruct (Hks k) as (w & Hw); [simpl; tauto|];
         exists w; split; [exact Hw|];
         unfold RequestForAttestationUtils.field; simpl; rewrite Hw; simpl;
         apply equal_sortObj; eapply wf_assoc; eassumption
       end).
Qed.

(** X12. A schema whose five fields are truthy survives compression:
    [decompressSchema] of [compressSchema] returns the object of exactly
    the five fields, each with its keys sorted, whatever other keys the
    schema had; when the schema has exactly these five keys the result
    equals it as an object. *)
Theorem decompressSchema_compressSchema (s : value) :
  wf s = true ->
  five_truthy s = true ->
  compressSchema s ≫= decompressSchema = Return (sorted_schema s)
  /\ (has_keys schema_keys s = true -> equal (sorted_schema s) s = true).
Proof.
  intros Hwf H5. split.
  - destruct s as [| | | | | |ps]; try discriminate.
    rewrite (compressSchema_Obj ps), H5 by (now apply wf_Obj in Hwf).
    reflexivity.
  - now apply sorted_schema_equal.
Qed.

Lemma str_strict_eq_true (s : string) (v : value) :
  str_strict_eq s v = true <-> v = Str s.
Proof.
  destruct v as [| | | |s'| |]; simpl; try (split; [discriminate|intros [=]]).
  rewrite String.eqb_eq. split; [now intros ->|now intros [= ->]].
Qed.

Lemma get_Str_inv (v : value) (k s : string) :
  get v k = Ok (Str s) -> exists ps, v = Obj ps /\ assoc k ps = Some (Str s).
Proof.
  destruct v as [| | | | | |ps]; simpl; try discriminate.
  destruct (assoc k ps) as [w|] eqn:Hk; simpl; [|discriminate].
  intros [= ->]. eauto.
Qed.

Section WithCollaborators.
Variable ajv_validate :
  value -> value -> value -> Result (value * option (list value)).
Variable CTypeModel : value.
Variable CTypeWrapperModel : value.
Variable hashObjectAsStr : value -> string.
Variable validateAddress : value -> string -> Result value.

Abbreviation errorCheck' :=
  (errorCheck ajv_validate CTypeModel CTypeWrapperModel hashObjectAsStr
     validateAddress) (only parsing).
Abbreviation compress' :=
  (compress ajv_validate CTypeModel CTypeWrapperModel hashObjectAsStr
     validateAddress) (only parsing).

Lemma errorCheck_Return_inv (input : value) :
  errorCheck' input = Return tt ->
  exists ps h owner,
    verifySchema ajv_validate CTypeModel input CTypeWrapperModel = Ok true
    /\ get input "schema" = Ok (Obj ps)
    /\ get input "hash" = Ok (Str h)
    /\ getHashForSchema hashObjectAsStr (Obj ps) = Ok h
    /\ assoc "$id" ps = Some (Str (getIdForCTypeHash h))
    /\ get input "owner" = Ok owner
    /\ owner_refused validateAddress owner = Ok false.
Proof.
  unfold errorCheck. intros H.
  apply bindO_Return_iff in H as (ok & Hv%lift_Return_iff & H).
  destruct ok; cbn [negb] in H; [|discriminate].
  apply bindO_Return_iff in H as (schema & Hs%lift_Return_iff & H).
  apply bindO_Return_iff in H as (hash & Hh%lift_Return_iff & H).
  destruct (truthy schema) eqn:Ht; cbn [negb] in H; [|discriminate].
  apply bindO_Return_iff in H as (fromSchema & Hfs%lift_Return_iff & H).
  destruct (str_strict_eq fromSchema hash) eqn:Heq; cbn [negb] in H;
    [|discriminate].
  apply bindO_Return_iff in H as (id & Hid%lift_Return_iff & H).
  apply bindO_Return_iff in H as (id' & Hid'%lift_Return_iff & H).
  destruct (str_strict_eq id id') eqn:Heq'; cbn [negb] in H; [|discriminate].
  apply bindO_Return_iff in H as (owner & Ho%lift_Return_iff & H).
  apply bindO_Return_iff in H as (refused & Hr%lift_Return_iff & H).
  destruct refused; [discriminate|].
  apply str_strict_eq_true in Heq as ->. apply str_strict_eq_true in Heq' as ->.
  unfold getIdForSchema in Hid. rewrite Hfs in Hid. injection Hid as <-.
  apply get_Str_inv in Hid' as (ps & -> & Hid').
  exists ps, fromSchema, owner. auto 10.
Qed.

Lemma owner_refused_false_iff (owner : value) :
  owner_refused validateAddress owner = Ok false <->
  owner = Null
  \/ exists a v, owner = Str a
       /\ validateAddress (Str a) "CType owner" = Ok v /\ truthy v = true.
Proof.
  unfold owner_refused. destruct owner as [| | | |a| |]; simpl;
    try (split; [discriminate|intros [[=]|(? & ? & [=] & _)]]).
  - split; [now left|reflexivity].
  - split.
    + destruct (validateAddress (Str a) "CType owner") as [v|e] eqn:Hv;
        simpl; [|discriminate].
      intros [= Ht%negb_false_iff]. right. eauto.
    + intros [[=]|(a' & v & [= <-] & -> & Ht)]. simpl. now rewrite Ht.
Qed.

(** X13. What a CType that passes [errorCheck] looks like: its schema is
    an object, its hash is the string that [hashObjectAsStr] returns on
    the object of the four fields $schema, properties, title, type of
    the schema, the $id of the schema is the string 'kilt:ctype:'
    followed by that hash, hence not empty, and its owner is [null] or
    a string that the address validator answers with a truthy value. *)
Theorem CType_errorCheck_invariant (input : value) :
  errorCheck' input = Return tt ->
  exists ps h,
    get input "schema" = Ok (Obj ps)
    /\ get input "hash" = Ok (Str h)
    /\ h = hashObjectAsStr
             (Obj [("$schema", default Undefined (assoc "$schema" ps));
                   ("properties", default Undefined (assoc "properties" ps));
                   ("title", default Undefined (assoc "title" ps));
                   ("type", default Undefined (assoc "type" ps))])
    /\ assoc "$id" ps = Some (Str ("kilt:ctype:" ++ h))
    /\ truthy (RequestForAttestationUtils.field (Obj ps) "$id") = true
    /\ (get input "owner" = Ok Null
        \/ exists a v, get input "owner" = Ok (Str a)
             /\ validateAddress (Str a) "CType owner" = Ok v
             /\ truthy v = true).
Proof.
  intros (ps & h & owner & _ & Hs & Hh & Hfs & Hid & Ho & Hr)%errorCheck_Return_inv.
  exists ps, h. split; [exact Hs|]. split; [exact Hh|].
  split; [now injection Hfs|]. split; [exact Hid|]. split.
  - unfold RequestForAttestationUtils.field. simpl. rewrite Hid. reflexivity.
  - apply owner_refused_false_iff in Hr as [->|(a & v & -> & Hv & Ht)];
      [now left|right; eauto].
Qed.

Lemma compress_of_errorCheck (input : value) :
  wf input = true ->
  errorCheck' input = Return tt ->
  compress' input
  = let schema := RequestForAttestationUtils.field input "schema" in
    if five_truthy schema
    then Return (Arr [RequestForAttestationUtils.field input "hash";
                      RequestForAttestationUtils.field input "owner";
                      Arr (map (fun k =>
                                  Jsonabc.sortObj
                                    (RequestForAttestationUtils.field schema k))
                             schema_keys)])
    else Raise (ERROR_COMPRESS_OBJECT schema "cTypeSchema").
Proof.
  intros Hwf Herr. unfold compress. rewrite Herr.
  apply errorCheck_Return_inv
    in Herr as (ps & h & owner & _ & Hs & Hh & _ & _ & Ho & _).
  assert (Hfs : RequestForAttestationUtils.field input "schema" = Obj ps)
    by (unfold RequestForAttestationUtils.field; now rewrite Hs).
  assert (Hfh : RequestForAttestationUtils.field input "hash" = Str h)
    by (unfold RequestForAttestationUtils.field; now rewrite Hh).
  assert (Hfo : RequestForAttestationUtils.field input "owner" = owner)
    by (unfold RequestForAttestationUtils.field; now rewrite Ho).
  assert (Hwfs : wf (Obj ps) = true)
    by (rewrite <- Hfs; now apply wf_field).
  cbv zeta. rewrite Hfs, Hfh, Hfo. cbn [mbind Outcome_bind].
  rewrite Hs, Hh, Ho. cbn [lift mbind Outcome_bind].
  rewrite (compressSchema_Obj ps) by (now apply wf_Obj in Hwfs).
  destruct (five_truthy (Obj ps)); reflexivity.
Qed.

(** X14. [compress] of a CType throws what [errorCheck] throws; when
    [errorCheck] passes it throws ERROR_COMPRESS_OBJECT carrying the
    schema if one of the five fields of the schema is falsy, and
    otherwise returns the array of the hash, the owner and the five
    fields of the schema with their keys sorted. *)
Theorem CType_compress_exact (input : value) :
  wf input = true ->
  compress' input
  = match errorCheck' input with
    | Raise e => Raise e
    | Return _ =>
        let schema := RequestForAttestationUtils.field input "schema" in
        if five_truthy schema
        then Return (Arr [RequestForAttestationUtils.field input "hash";
                          RequestForAttestationUtils.field input "owner";
                          Arr (map (fun k =>
                                      Jsonabc.sortObj
                                        (RequestForAttestationUtils.field schema k))
                                 schema_keys)])
        else Raise (ERROR_COMPRESS_OBJECT schema "cTypeSchema")
    end.
Proof.
  intros Hwf.
  destruct (errorCheck' input) as [[]|e] eqn:Herr.
  - now apply compress_of_errorCheck.
  - unfold compress. now rewrite Herr.
Qed.

(** The CType that [decompress] makes of a compressed CType. *)
Lemma decompress_compressed (h o : value) (s : value) :
  decompress
    (Arr [h; o;
          Arr (map (fun k => Jsonabc.sortObj (RequestForAttestationUtils.field s k))
                 schema_keys)])
  = Return (Obj [("hash", h); ("owner", o); ("schema", sorted_schema s)]).
Proof. reflexivity. Qed.

(** X15. A CType that passes [errorCheck] and whose schema has its five
    fields truthy survives compression: [decompress] of [compress]
    returns the CType of the same hash and owner and of the schema
    reduced to its five fields with their keys sorted; it equals the
    original as an object when the CType has exactly the keys hash,
    owner, schema and the schema exactly its five keys. *)
Theorem CType_decompress_compress (input : value) :
  wf input = true ->
  errorCheck' input = Return tt ->
  five_truthy (RequestForAttestationUtils.field input "schema") = true ->
  compress' input ≫= decompress
  = Return (Obj [("hash", RequestForAttestationUtils.field input "hash");
                 ("owner", RequestForAttestationUtils.field input "owner");
                 ("schema",
                  sorted_schema (RequestForAttestationUtils.field input "schema"))])
  /\ (has_keys ctype_keys input = true ->
      has_keys schema_keys (RequestForAttestationUtils.field input "schema") = true ->
      equal (Obj [("hash", RequestForAttestationUtils.field input "hash");
                  ("owner", RequestForAttestationUtils.field input "owner");
                  ("schema",
                   sorted_schema
                     (RequestForAttestationUtils.field input "schema"))])
        input = true).
Proof.
  intros Hwf Herr H5. split.
  - rewrite (compress_of_errorCheck input Hwf Herr). cbv zeta. rewrite H5.
    apply decompress_compressed.
  - intros Hkeys Hskeys.
    pose proof (wf_field input "hash" Hwf) as Hwh.
    pose proof (wf_field input "owner" Hwf) as Hwo.
    pose proof (wf_field input "schema" Hwf) as Hws.
    apply RequestForAttestationUtilsFacts.has_keys_Obj in Hkeys
      as (ps & -> & Hlen & Hks).
    destruct (Hks "hash") as (h & Hh); [simpl; tauto|].
    destruct (Hks "owner") as (o & Ho); [simpl; tauto|].
    destruct (Hks "schema") as (s & Hs); [simpl; tauto|].
    assert (Hfh : RequestForAttestationUtils.field (Obj ps) "hash" = h)
      by (unfold RequestForAttestationUtils.field; simpl; now rewrite Hh).
    assert (Hfo : RequestForAttestationUtils.field (Obj ps) "owner" = o)
      by (unfold RequestForAttestationUtils.field; simpl; now rewrite Ho).
    assert (Hfs : RequestForAttestationUtils.field (Obj ps) "schema" = s)
      by (unfold RequestForAttestationUtils.field; simpl; now rewrite Hs).
    rewrite Hfh in *. rewrite Hfo in *. rewrite Hfs in *.
    apply equal_Obj. split; [now rewrite Hlen|].
    intros k v Hin. simpl in Hin.
    destruct Hin as [[= <- <-]|[[= <- <-]|[[= <- <-]|[]]]].
    + exists h. split; [exact Hh|now apply equal_refl].
    + exists o. split; [exact Ho|now apply equal_refl].
    + exists s. split; [exact Hs|now apply sorted_schema_equal].
Qed.

(** *** Validation messages *)

Lemma push_messages_app (errors ms out : list value) :
  push_messages ms errors = Ok out ->
  exists extra,
    out = ms ++ extra /\ Forall (fun m => typeof m = "string") extra.
Proof.
  revert ms. induction errors as [|error errors IH]; intros ms; simpl.
  - intros [= <-]. exists []. split; [now rewrite app_nil_r|constructor].
  - unfold push_message.
    destruct (get error "message") as [message|e]; simpl; [|discriminate].
    destruct (String.eqb_spec (typeof message) "string") as [Hty|Hty]; simpl.
    + intros (extra & -> & Hall)%IH. exists (message :: extra).
      split; [now rewrite <- app_assoc|now constructor].
    + apply IH.
Qed.

(** X16. [verifySchemaWithErrors] with a messages array returns what
    [verifySchema] returns; it only appends to the array, only strings,
    and nothing when the validation succeeded. *)
Theorem verifySchemaWithErrors_messages
    (object schema : value) (ms : list value) (b : bool)
    (out : option (list value)) :
  verifySchemaWithErrors ajv_validate CTypeModel object schema (Some ms)
    = Ok (b, out) ->
  verifySchema ajv_validate CTypeModel object schema = Ok b
  /\ exists extra,
       out = Some (ms ++ extra)
       /\ Forall (fun m => typeof m = "string") extra
       /\ (b = true -> extra = []).
Proof.
  unfold verifySchema, verifySchemaWithErrors.
  destruct (ajv_validate CTypeModel schema object) as [[result errors]|e];
    simpl; [|discriminate].
  destruct errors as [errors|]; simpl.
  - destruct (truthy result) eqn:Ht; simpl.
    + intros [= <- <-]. split; [reflexivity|]. exists [].
      split; [now rewrite app_nil_r|]. split; [constructor|reflexivity].
    + destruct (push_messages ms errors) as [out'|e] eqn:Hp; simpl;
        [|discriminate].
      intros [= <- <-]. split; [reflexivity|].
      apply push_messages_app in Hp as (extra & -> & Hall).
      exists extra. split; [reflexivity|]. split; [exact Hall|discriminate].
  - intros [= <- <-]. split; [reflexivity|]. exists [].
    split; [now rewrite app_nil_r|]. split; [constructor|reflexivity].
Qed.

End WithCollaborators.

(** *** The owner on the ledger *)

Section WithChain.
Variable getOwner : value -> Attestation.Promise (option string).

(** X17. [verifyOwner] resolves to true exactly when the ledger knows an
    owner of the hash that is not the empty string and is the owner
    field of the CType; then [verifyStored] resolves to true as well;
    and the two reject on the same CTypes with the same reason. *)
Theorem verifyOwner_verifyStored (ctype : value) :
  (verifyOwner getOwner ctype = Attestation.Resolved true <->
   exists hash a,
     get ctype "hash" = Ok hash
     /\ getOwner hash = Attestation.Resolved (Some a)
     /\ a <> ""
     /\ get ctype "owner" = Ok (Str a))
  /\ (verifyOwner getOwner ctype = Attestation.Resolved true ->
      verifyStored getOwner ctype = Attestation.Resolved true)
  /\ (forall reason,
        verifyOwner getOwner ctype = Attestation.Rejected reason <->
        verifyStored getOwner ctype = Attestation.Rejected reason).
Proof.
  unfold verifyOwner, verifyStored.
  destruct (get ctype "hash") as [hash|e] eqn:Hh.
  2:{ split; [|split].
      - split; [discriminate|]. intros (? & ? & [=] & _).
      - discriminate.
      - reflexivity. }
  destruct (getOwner hash) as [[a|]|reason'] eqn:Hq.
  - assert (Ho : exists o, get ctype "owner" = Ok o).
    { destruct ctype; try discriminate; simpl; eauto. }
    destruct Ho as (o & Ho). rewrite Ho. simpl.
    destruct (String.eqb_spec a "") as [->|Hne]; simpl.
    + split; [|split].
      * split; [discriminate|]. intros (? & ? & [= <-] & Hq' & Hne & _).
        rewrite Hq in Hq'. injection Hq' as <-. contradiction.
      * discriminate.
      * intros reason. split; discriminate.
    + split; [|split].
      * split.
        -- intros [= ->%str_strict_eq_true]. exists hash, a. auto.
        -- intros (? & a' & [= <-] & Hq' & _ & [= ->]).
           rewrite Hq in Hq'. injection Hq' as <-.
           simpl. now rewrite String.eqb_refl.
      * reflexivity.
      * intros reason. split; discriminate.
  - split; [|split].
    + split; [discriminate|]. intros (? & ? & [= <-] & Hq' & _).
      rewrite Hq in Hq'. discriminate.
    + discriminate.
    + intros reason. split; discriminate.
  - split; [|split].
    + split; [discriminate|]. intros (? & ? & [= <-] & Hq' & _).
      rewrite Hq in Hq'. discriminate.
    + discriminate.
    + reflexivity.
Qed.

End WithChain.

End CTypeUtilsFacts.

(** ** Public identities *)

Module PublicIdentityFacts.
Import Js JsMore PublicIdentity.

Lemma lift_identity_Return_iff {A} (m : Result A) (a : A) :
  lift m = Return a <-> m = Ok a.
Proof. destruct m; simpl; split; congruence. Qed.

(** The test of the loop of [getJSONProperty]. *)
Lemma filter_test (filterValue : string) (v : value) :
  truthy v && str_strict_eq filterValue v = true
  <-> v = Str filterValue /\ filterValue <> "".
Proof.
  destruct v as [| | | |s| |]; simpl;
    try (split; [try discriminate; now rewrite andb_false_r|intros [[=] _]]).
  rewrite andb_true_iff, negb_true_iff, String.eqb_neq, String.eqb_eq.
  split.
  - intros [Hne ->]. auto.
  - intros [[= ->] Hne]. auto.
Qed.

Lemma search_Return_inv (filterKey filterValue property : string)
    (items : list value) (v : value) :
  search filterKey filterValue property items = Return v ->
  exists o, In o items
            /\ get o filterKey = Ok (Str filterValue)
            /\ filterValue <> ""
            /\ get o property = Ok v.
Proof.
  induction items as [|o items IH]; simpl; [discriminate|].
  destruct (get o filterKey) as [w|e] eqn:Hw; simpl; [|discriminate].
  destruct (truthy w && str_strict_eq filterValue w) eqn:Ht.
  - apply filter_test in Ht as [-> Hne].
    intros Hp%lift_identity_Return_iff. exists o. auto.
  - intros (o' & Hin & H)%IH. exists o'. auto.
Qed.

Lemma getJSONProperty_Return_inv (did : value)
    (listProperty filterKey filterValue property : string) (v : value) :
  getJSONProperty did listProperty filterKey filterValue property = Return v ->
  exists items o,
    get did listProperty ≫= iterate = Ok items
    /\ In o items
    /\ get o filterKey = Ok (Str filterValue)
    /\ filterValue <> ""
    /\ get o property = Ok v.
Proof.
  unfold getJSONProperty.
  destruct (get did listProperty) as [l|e]; simpl; [|discriminate].
  destruct (truthy l); simpl; [|discriminate].
  destruct (iterate l) as [items|e]; simpl; [|discriminate].
  intros (o & H)%search_Return_inv. exists items, o. auto.
Qed.

(** X18. As [fromDidDocument] calls it, with the filter key 'type' and
    the property 'publicKeyHex' or 'serviceEndpoint', the loop of
    [getJSONProperty] returns the property of the first element whose
    type is the filter value, whatever follows it, later matches
    included. *)
Theorem search_first_match (filterValue property : string)
    (pre post : list value) (o : value) :
  property = "publicKeyHex" \/ property = "serviceEndpoint" ->
  filterValue <> "" ->
  Forall (fun x => exists v, get x "type" = Ok v /\ v <> Str filterValue) pre ->
  get o "type" = Ok (Str filterValue) ->
  search "type" filterValue property (pre ++ o :: post)
  = Return (RequestForAttestationUtils.field o property).
Proof.
  intros _ Hne Hpre Ho. induction Hpre as [|x pre (v & Hv & Hneq) _ IH]; simpl.
  - rewrite Ho. simpl.
    assert (Ht : truthy (Str filterValue)
                 && str_strict_eq filterValue (Str filterValue) = true)
      by (now apply filter_test).
    simpl in Ht. rewrite Ht.
    unfold RequestForAttestationUtils.field.
    destruct o; try discriminate; reflexivity.
  - rewrite Hv. simpl.
    destruct (truthy v && str_strict_eq filterValue v) eqn:Ht; [|exact IH].
    apply filter_test in Ht as [-> _]. contradiction.
Qed.

(** X19. With the empty string as filter value the loop of
    [getJSONProperty] finds nothing: it throws on every list, since the
    value of the filter key must be truthy and be the filter value. *)
Theorem search_empty_filter (filterKey property : string) (items : list value) :
  exists e, search filterKey "" property items = Raise e.
Proof.
  destruct (search filterKey "" property items) as [v|e] eqn:Hs; [|eauto].
  apply search_Return_inv in Hs as (_ & _ & _ & Hne & _). contradiction.
Qed.

Section WithDid.
Variable IDENTIFIER_PREFIX : string.
Variable KEY_TYPE_ENCRYPTION : string.
Variable SERVICE_KILT_MESSAGING : string.
Variable getAddressFromIdentifier : string -> Result string.
Variable queryByIdentifier : string -> Attestation.Promise (option IDid).
Variable resolve : string -> Attestation.Promise value.
Variable encodeURIComponent : string -> string.

Abbreviation fromDidDocument' :=
  (fromDidDocument IDENTIFIER_PREFIX KEY_TYPE_ENCRYPTION SERVICE_KILT_MESSAGING
     getAddressFromIdentifier) (only parsing).

Lemma fromDidDocument_id (didDocument : value) (i : PublicIdentity) :
  fromDidDocument' didDocument = Some i ->
  exists id, get didDocument "id" = Ok (Str id).
Proof.
  unfold fromDidDocument.
  destruct (buildFromDidDocument _ _ _ _ didDocument) as [i'|e] eqn:Hb;
    [|discriminate].
  intros _. unfold buildFromDidDocument in Hb.
  apply CTypeUtilsFacts.bindO_Return_iff in Hb as (idv & Hid%lift_identity_Return_iff & Hb).
  apply CTypeUtilsFacts.bindO_Return_iff in Hb as (a & Ha & _).
  unfold addressOf in Ha. destruct idv as [| | | |id| |]; try discriminate.
  eauto.
Qed.

(** X20. When [fromDidDocument] returns an identity, the id of the
    document is a string, the address is that id, or what
    [getAddressFromIdentifier] makes of it when it starts with the
    KILT prefix, the box key is the publicKeyHex of an entry of
    publicKey of the encryption key type, and the service address the
    serviceEndpoint of an entry of service of the messaging type.  So a
    document without a messaging service gives [undefined], although
    the constructor takes the service address as optional. *)
Theorem fromDidDocument_Some (didDocument : value) (i : PublicIdentity) :
  fromDidDocument' didDocument = Some i ->
  exists id keys key services service,
    get didDocument "id" = Ok (Str id)
    /\ (if String.prefix IDENTIFIER_PREFIX id
        then getAddressFromIdentifier id = Ok (address i)
        else address i = id)
    /\ get didDocument "publicKey" ≫= iterate = Ok keys
    /\ In key keys
    /\ get key "type" = Ok (Str KEY_TYPE_ENCRYPTION)
    /\ get key "publicKeyHex" = Ok (boxPublicKeyAsHex i)
    /\ get didDocument "service" ≫= iterate = Ok services
    /\ In service services
    /\ get service "type" = Ok (Str SERVICE_KILT_MESSAGING)
    /\ get service "serviceEndpoint" = Ok (serviceAddress i)
    /\ KEY_TYPE_ENCRYPTION <> ""
    /\ SERVICE_KILT_MESSAGING <> "".
Proof.
  unfold fromDidDocument.
  destruct (buildFromDidDocument _ _ _ _ didDocument) as [i'|e] eqn:Hb;
    [|discriminate].
  intros [= ->]. unfold buildFromDidDocument in Hb.
  apply CTypeUtilsFacts.bindO_Return_iff in Hb as (idv & Hid%lift_identity_Return_iff & Hb).
  apply CTypeUtilsFacts.bindO_Return_iff in Hb as (a & Ha & Hb).
  apply CTypeUtilsFacts.bindO_Return_iff in Hb as (k & Hk & Hb).
  apply CTypeUtilsFacts.bindO_Return_iff in Hb as (s & Hs & Hb).
  injection Hb as <-.
  apply getJSONProperty_Return_inv in Hk as (keys & key & Hks & Hkin & Hkt & Hkne & Hkp).
  apply getJSONProperty_Return_inv in Hs as (svs & sv & Hss & Hsin & Hst & Hsne & Hsp).
  unfold addressOf in Ha. destruct idv as [| | | |id| |]; try discriminate.
  exists id, keys, key, svs, sv. simpl.
  split; [exact Hid|]. split.
  { destruct (String.prefix IDENTIFIER_PREFIX id).
    - now apply lift_identity_Return_iff.
    - now injection Ha. }
  auto 12.
Qed.

Lemma fromDidDocument_truthy (didDocument : value) (i : PublicIdentity) :
  fromDidDocument' didDocument = Some i -> truthy didDocument = true.
Proof.
  intros (id & Hid)%fromDidDocument_id.
  destruct didDocument as [| | | | | |ps]; try discriminate. reflexivity.
Qed.

Abbreviation resolveFromDid' :=
  (resolveFromDid IDENTIFIER_PREFIX KEY_TYPE_ENCRYPTION SERVICE_KILT_MESSAGING
     getAddressFromIdentifier) (only parsing).

(** X21. An identifier without the KILT prefix is resolved by the URL
    resolver alone, at the uniresolver address of the encoded
    identifier: the ledger is not consulted, and an identity comes back
    exactly when the resolver resolves to a value whose didDocument
    [fromDidDocument] accepts. *)
Theorem resolveFromDid_foreign (identifier : string) :
  String.prefix IDENTIFIER_PREFIX identifier = false ->
  (forall queryByIdentifier',
     resolveFromDid' queryByIdentifier' resolve encodeURIComponent identifier
     = resolveFromDid' queryByIdentifier resolve encodeURIComponent identifier)
  /\ (forall i,
        resolveFromDid' queryByIdentifier resolve encodeURIComponent identifier
        = Attestation.Resolved (Some i)
        <-> exists didResult didDocument,
              resolve ("https://uniresolver.io/1.0/identifiers/"
                       ++ encodeURIComponent identifier)%string
              = Attestation.Resolved didResult
              /\ get didResult "didDocument" = Ok didDocument
              /\ fromDidDocument' didDocument = Some i).
Proof.
  intros Hp. unfold resolveFromDid, uniresolver. rewrite Hp.
  split; [reflexivity|]. intros i.
  destruct (resolve _) as [didResult|reason]; split.
  - destruct (truthy didResult); [|discriminate].
    destruct (get didResult "didDocument") as [doc|e] eqn:Hd; [|discriminate].
    destruct (truthy doc); [|discriminate].
    intros [= Hf]. exists didResult, doc. auto.
  - intros (r & doc & [= <-] & Hd & Hf).
    pose proof (fromDidDocument_truthy doc i Hf) as Ht.
    assert (Htr : truthy didResult = true).
    { destruct didResult as [| | | | | |ps]; try discriminate; try reflexivity;
        simpl in Hd; injection Hd as <-; discriminate. }
    rewrite Htr, Hd, Ht. now rewrite Hf.
  - discriminate.
  - intros (r & doc & [=] & _).
Qed.

(** X22. For an identifier with the KILT prefix that the ledger knows:
    without a document store the identity is built from the ledger
    entry and the resolver is not consulted; and the result is
    [undefined] exactly when the store resolves to a truthy document
    that [fromDidDocument] refuses, the key on the ledger being ignored
    then. *)
Theorem resolveFromDid_kilt (identifier : string) (did : IDid) :
  String.prefix IDENTIFIER_PREFIX identifier = true ->
  queryByIdentifier identifier = Attestation.Resolved (Some did) ->
  ((documentStore did = None \/ documentStore did = Some "") ->
   forall resolve' encodeURIComponent',
     resolveFromDid' queryByIdentifier resolve' encodeURIComponent' identifier
     = fromChain getAddressFromIdentifier did)
  /\ (resolveFromDid' queryByIdentifier resolve encodeURIComponent identifier
      = Attestation.Resolved None
      <-> exists store didDocument,
            documentStore did = Some store
            /\ store <> ""
            /\ resolve store = Attestation.Resolved didDocument
            /\ truthy didDocument = true
            /\ fromDidDocument' didDocument = None).
Proof.
  intros Hp Hq. unfold resolveFromDid. rewrite Hp, Hq. split.
  - intros [Hs|Hs] resolve' enc'; rewrite Hs; reflexivity.
  - assert (Hchain : fromChain getAddressFromIdentifier did
                     <> Attestation.Resolved None).
    { unfold fromChain.
      destruct (getAddressFromIdentifier (PublicIdentity.identifier did)); discriminate. }
    destruct (documentStore did) as [store|] eqn:Hs.
    2:{ split; [intros H; now apply Hchain in H|intros (? & ? & [=] & _)]. }
    simpl. destruct (String.eqb_spec store "") as [->|Hne]; simpl.
    { split; [intros H; now apply Hchain in H|].
      intros (? & ? & [= <-] & Hne & _). contradiction. }
    destruct (resolve store) as [doc|reason] eqn:Hr.
    2:{ split; [discriminate|].
        intros (? & ? & [= <-] & _ & Hr' & _). rewrite Hr in Hr'. discriminate. }
    destruct (truthy doc) eqn:Ht.
    + split.
      * intros [= Hf]. exists store, doc. auto.
      * intros (? & ? & [= <-] & _ & Hr' & _ & Hf).
        rewrite Hr in Hr'. injection Hr' as <-. now rewrite Hf.
    + split; [intros H; now apply Hchain in H|].
      intros (? & ? & [= <-] & _ & Hr' & Ht' & _).
      rewrite Hr in Hr'. injection Hr' as <-. congruence.
Qed.

End WithDid.

End PublicIdentityFacts.

(** ** Attestation: what [verify] reads *)

Module AttestationVerifyFacts.
Import Attestation.

(** X23. [verify] hands the line 'No valid attestation found' to the
    debug log exactly when it resolves to false, and nothing otherwise;
    it rejects exactly when the ledger query rejects, with its reason. *)
Theorem verify_log (query : string -> Promise (option Attestation))
    (this : Attestation) (claimHash : option string) :
  snd (verify query this claimHash)
  = match fst (verify query this claimHash) with
    | Resolved false => ["No valid attestation found"]
    | _ => []
    end
  /\ forall reason,
       fst (verify query this claimHash) = Rejected reason
       <-> query (default (Attestation.claimHash this) claimHash)
           = Rejected reason.
Proof.
  unfold verify.
  destruct (query (default (Attestation.claimHash this) claimHash))
    as [[a|]|reason']; simpl.
  - split; [now destruct (_ && _)|]. intros reason. split; discriminate.
  - split; [reflexivity|]. intros reason. split; discriminate.
  - split; [reflexivity|]. intros reason. split; intros [= ->]; reflexivity.
Qed.

(** X24. Of the attestation it is called on, [verify] with a claim hash
    reads the owner only: two attestations of the same owner get the
    same answer and the same log, whatever their own claim hash, CType
    hash, delegation and revocation flag. *)
Theorem verify_reads_owner_only (query : string -> Promise (option Attestation))
    (this this' : Attestation) (claimHash : string) :
  owner this = owner this' ->
  verify query this (Some claimHash) = verify query this' (Some claimHash).
Proof. intros Ho. unfold verify. simpl. now rewrite Ho. Qed.

(** X25. Constructor and [verify] together: when the ledger holds, for
    the hash of a request, the attestation constructed from that request
    by an attester, any attestation constructed from the request
    verifies to true exactly when its attester has the same address and
    the stored attestation was not constructed as revoked; the
    revocation argument of the verifying attestation plays no role. *)
Theorem verify_after_new (query : string -> Promise (option Attestation))
    (request : IRequestForAttestation) (attester attester' : Identity)
    (revoked revoked' : option bool) :
  query (hash request) = Resolved (Some (new request attester revoked)) ->
  fst (verify query (new request attester' revoked') None)
  = Resolved (String.eqb (address attester) (address attester')
              && negb (default false revoked)).
Proof. intros Hq. unfold verify. simpl. now rewrite Hq. Qed.

End AttestationVerifyFacts.

(** ** Permission bitset: the bits that count *)

Module DelegationDecoderBits.
Import DelegationDecoder.

Lemma decodePermissions_testbit (bitset : Z) :
  decodePermissions bitset
  = (if Z.testbit bitset 0 then [ATTEST] else [])
    ++ (if Z.testbit bitset 1 then [DELEGATE] else []).
Proof.
  unfold decodePermissions.
  rewrite (DelegationDecoderFacts.flag_test bitset ATTEST),
    (DelegationDecoderFacts.flag_test bitset DELEGATE).
  change (bit ATTEST) with 0%Z. change (bit DELEGATE) with 1%Z.
  destruct (Z.testbit bitset 0), (Z.testbit bitset 1); reflexivity.
Qed.

(** X26. [decodePermissions] looks at the two lowest bits of the bitset
    only: a bitset decodes as its remainder modulo 4, the result has no
    duplicates, and the bitwise OR of the flags of the result is that
    remainder, so bits that stand for no permission are dropped. *)
Theorem decodePermissions_low_bits (bitset : Z) :
  decodePermissions bitset = decodePermissions (bitset mod 4)
  /\ NoDup (decodePermissions bitset)
  /\ foldr (fun p acc => Z.lor (flag p) acc) 0%Z (decodePermissions bitset)
     = (bitset mod 4)%Z.
Proof.
  assert (Hlow : forall i, (0 <= i < 2)%Z ->
            Z.testbit (bitset mod 4) i = Z.testbit bitset i).
  { intros i Hi. change 4%Z with (2 ^ 2)%Z.
    apply Z.mod_pow2_bits_low. lia. }
  assert (H1 : decodePermissions bitset = decodePermissions (bitset mod 4)).
  { rewrite !decodePermissions_testbit, !Hlow by lia. reflexivity. }
  split; [exact H1|]. split.
  - rewrite decodePermissions_testbit.
    destruct (Z.testbit bitset 0), (Z.testbit bitset 1); simpl;
      repeat (apply NoDup_cons; split); try apply NoDup_nil_2;
      try apply not_elem_of_nil.
    intros [[=]|[]%not_elem_of_nil]%elem_of_cons.
  - rewrite H1.
    pose proof (Z.mod_pos_bound bitset 4 ltac:(lia)) as Hr.
    assert (Hc : (bitset mod 4 = 0 \/ bitset mod 4 = 1
                  \/ bitset mod 4 = 2 \/ bitset mod 4 = 3)%Z) by lia.
    destruct Hc as [-> | [-> | [-> | ->]]]; reflexivity.
Qed.

End DelegationDecoderBits.

(** ** The theorems at the concrete instances *)

Module MoreWitnesses.
Import Js JsMore.

(** The nonce map with a digest that is not hexadecimal is refused. *)
Lemma check_claimNonceMap_entries_witness :
  RequestForAttestationUtils.check_claimNonceMap MoreExamples.validateHash_hex
    MoreExamples.request_mixed_nonces
  = Throw ERROR_CLAIM_NONCE_MAP_MALFORMED.
Proof.
  apply (RequestForAttestationUtilsGuards.check_claimNonceMap_entries
           MoreExamples.validateHash_hex MoreExamples.hex
           MoreExamples.request_mixed_nonces MoreExamples.nonces_mixed).
  - intros kv _. reflexivity.
  - reflexivity.
Defined.

(** Bob's request has passed [errorCheck] when [compress] returns. *)
Lemma compress_output_witness :
  RequestForAttestationUtils.errorCheck Examples.accept Examples.accept
    Examples.verified Examples.request_bob = Ok tt.
Proof.
  refine (proj1 (RequestForAttestationUtilsGuards.compress_output
                   Examples.accept Examples.accept Examples.verified
                   Examples.legitimation_compress
                   Examples.legitimation_decompress
                   Examples.request_bob _ _)).
  vm_compute. reflexivity.
Defined.

(** Bob's compressed request comes back with its contents sorted. *)
Lemma compress_decompress_witness :
  exists r,
    RequestForAttestationUtils.decompress Examples.no_codec
      MoreExamples.compressed_bob = Ok r
    /\ RequestForAttestationUtils.compress Examples.accept Examples.accept
         Examples.verified Examples.no_codec r
       = Ok (Arr [Arr [Jsonabc.sortObj Examples.contents_bca; Str "0xctype";
                       Str "bob"];
                  Obj [("0xdigest-a", Str "nonce-a")];
                  Str "0xsignature";
                  Arr [Str "0xdigest-a"; Str "0xdigest-owner"];
                  Str "0xroot";
                  Arr [];
                  Null]).
Proof.
  eexists. split; [reflexivity|].
  apply (RequestForAttestationUtilsGuards.compress_decompress
           Examples.accept Examples.accept Examples.verified
           Examples.no_codec Examples.no_codec).
  - reflexivity.
  - vm_compute. reflexivity.
  - constructor.
Defined.

(** The membership schema, written with its keys out of order. *)
Lemma compressSchema_exact_witness :
  CTypeUtils.compressSchema MoreExamples.schema_membership
  = Return (Arr [Str "kilt:ctype:0xschema";
                 Str "http://kilt-protocol.org/draft-01/ctype#";
                 Str "membership";
                 Obj [("name", Obj [("type", Str "string")])];
                 Str "object"]).
Proof.
  exact (CTypeUtilsFacts.compressSchema_exact MoreExamples.schema_membership
           eq_refl).
Defined.

Lemma decompressSchema_compressSchema_witness :
  equal (CTypeUtils.sorted_schema MoreExamples.schema_membership)
    MoreExamples.schema_membership = true.
Proof.
  apply (CTypeUtilsFacts.decompressSchema_compressSchema
           MoreExamples.schema_membership eq_refl eq_refl).
  reflexivity.
Defined.

Lemma CType_errorCheck_invariant_witness :
  exists ps h,
    get MoreExamples.ctype_membership "schema" = Ok (Obj ps)
    /\ get MoreExamples.ctype_membership "hash" = Ok (Str h)
    /\ assoc "$id" ps = Some (Str ("kilt:ctype:" ++ h)).
Proof.
  destruct (CTypeUtilsFacts.CType_errorCheck_invariant
              MoreExamples.ajv_accept (Obj []) (Obj [])
              MoreExamples.hash_constant Examples.accept
              MoreExamples.ctype_membership eq_refl)
    as (ps & h & Hs & Hh & _ & Hid & _).
  exists ps, h. auto.
Defined.

Lemma CType_compress_exact_witness :
  CTypeUtils.compress MoreExamples.ajv_accept (Obj []) (Obj [])
    MoreExamples.hash_constant Examples.accept MoreExamples.ctype_membership
  = Return (Arr [Str "0xschema"; Str "alice";
                 Arr [Str "kilt:ctype:0xschema";
                      Str "http://kilt-protocol.org/draft-01/ctype#";
                      Str "membership";
                      Obj [("name", Obj [("type", Str "string")])];
                      Str "object"]]).
Proof.
  exact (CTypeUtilsFacts.CType_compress_exact
           MoreExamples.ajv_accept (Obj []) (Obj [])
           MoreExamples.hash_constant Examples.accept
           MoreExamples.ctype_membership eq_refl).
Defined.

Lemma CType_decompress_compress_witness :
  CTypeUtils.compress MoreExamples.ajv_accept (Obj []) (Obj [])
    MoreExamples.hash_constant Examples.accept MoreExamples.ctype_membership
  ≫= CTypeUtils.decompress
  = Return (Obj [("hash", Str "0xschema"); ("owner", Str "alice");
                 ("schema",
                  CTypeUtils.sorted_schema MoreExamples.schema_membership)]).
Proof.
  exact (proj1 (CTypeUtilsFacts.CType_decompress_compress
                  MoreExamples.ajv_accept (Obj []) (Obj [])
                  MoreExamples.hash_constant Examples.accept
                  MoreExamples.ctype_membership eq_refl eq_refl eq_refl)).
Defined.

(** Of the three errors of the refusing validator one message is kept. *)
Lemma verifySchemaWithErrors_messages_witness :
  CTypeUtils.verifySchema MoreExamples.ajv_refuse (Obj []) (Obj [])
    MoreExamples.schema_membership = Ok false.
Proof.
  exact (proj1 (CTypeUtilsFacts.verifySchemaWithErrors_messages
                  MoreExamples.ajv_refuse (Obj []) (Obj [])
                  MoreExamples.schema_membership [Str "earlier"] false
                  (Some [Str "earlier"; Str "should be object"]) eq_refl)).
Defined.

(** The first box key wins over the later one. *)
Lemma search_first_match_witness :
  PublicIdentity.search "type" MoreExamples.key_type "publicKeyHex"
    [MoreExamples.key_signing; MoreExamples.key_box;
     MoreExamples.key_box_later]
  = Return (Str "0xbox").
Proof.
  apply (PublicIdentityFacts.search_first_match MoreExamples.key_type
           "publicKeyHex" [MoreExamples.key_signing]
           [MoreExamples.key_box_later] MoreExamples.key_box).
  - now left.
  - discriminate.
  - constructor; [|constructor].
    eexists. split; [reflexivity|discriminate].
  - reflexivity.
Defined.

Lemma fromDidDocument_Some_witness :
  exists id, get MoreExamples.document_alice "id" = Ok (Str id).
Proof.
  destruct (PublicIdentityFacts.fromDidDocument_Some
              MoreExamples.prefix_kilt MoreExamples.key_type
              MoreExamples.service_type MoreExamples.address_of_identifier
              MoreExamples.document_alice MoreExamples.identity_alice eq_refl)
    as (id & _ & _ & _ & _ & Hid & _).
  exists id. exact Hid.
Defined.

(** A foreign identifier is resolved through the universal resolver. *)
Lemma resolveFromDid_foreign_witness :
  PublicIdentity.resolveFromDid MoreExamples.prefix_kilt MoreExamples.key_type
    MoreExamples.service_type MoreExamples.address_of_identifier
    MoreExamples.ledger_dids MoreExamples.resolver MoreExamples.escape_colons
    "did:web:alice"
  = Attestation.Resolved (Some MoreExamples.identity_alice).
Proof.
  apply (proj2 (PublicIdentityFacts.resolveFromDid_foreign
                  MoreExamples.prefix_kilt MoreExamples.key_type
                  MoreExamples.service_type MoreExamples.address_of_identifier
                  MoreExamples.ledger_dids MoreExamples.resolver
                  MoreExamples.escape_colons "did:web:alice" eq_refl)).
  exists (Obj [("didDocument", MoreExamples.document_alice)]),
    MoreExamples.document_alice.
  split; [reflexivity|]. split; reflexivity.
Defined.

(** Bob's stored document has no messaging service: no identity,
    although the ledger has his key. *)
Lemma resolveFromDid_kilt_witness :
  PublicIdentity.resolveFromDid MoreExamples.prefix_kilt MoreExamples.key_type
    MoreExamples.service_type MoreExamples.address_of_identifier
    MoreExamples.ledger_dids MoreExamples.resolver MoreExamples.escape_colons
    "did:kilt:bob"
  = Attestation.Resolved None.
Proof.
  apply (proj2 (PublicIdentityFacts.resolveFromDid_kilt
                  MoreExamples.prefix_kilt MoreExamples.key_type
                  MoreExamples.service_type MoreExamples.address_of_identifier
                  MoreExamples.ledger_dids MoreExamples.resolver
                  MoreExamples.escape_colons "did:kilt:bob" MoreExamples.did_bob
                  eq_refl eq_refl)).
  exists "https://store.example/bob", MoreExamples.document_bob.
  split; [reflexivity|]. split; [discriminate|].
  split; [reflexivity|]. split; reflexivity.
Defined.

(** A copy of Alice's attestation that is revoked on its own gets the
    answer of the original. *)
Lemma verify_reads_owner_only_witness :
  Attestation.verify Examples.ledger_example Examples.attestation_alice
    (Some "0xroot")
  = Attestation.verify Examples.ledger_example
      MoreExamples.attestation_alice_revoked (Some "0xroot").
Proof.
  apply (AttestationVerifyFacts.verify_reads_owner_only
           Examples.ledger_example Examples.attestation_alice
           MoreExamples.attestation_alice_revoked "0xroot").
  reflexivity.
Defined.

Lemma verify_after_new_witness :
  fst (Attestation.verify Examples.ledger_example
         (Attestation.new MoreExamples.request_root MoreExamples.alice
            (Some true)) None)
  = Attestation.Resolved true.
Proof.
  exact (AttestationVerifyFacts.verify_after_new Examples.ledger_example
           MoreExamples.request_root MoreExamples.alice MoreExamples.alice
           None (Some true) eq_refl).
Defined.

End MoreWitnesses.
